(** * The gRPC query server of the x/evm keeper (x/evm/keeper/grpc_query.go)

    A shallow embedding of the six handlers of [Querier]
    ([SeiAddressByEVMAddress], [EVMAddressBySeiAddress], [StaticCall],
    [Pointer], [PointerVersion], [Pointee]) together with the library
    functions they call on their arguments and results:
    go-ethereum's [common.HexToAddress] and [Address.Hex] (with the legacy
    Keccak-256 of its checksum) and the bech32 rendering of [sdk.AccAddress].

    Go values are modelled as follows: a [string] is a Rocq [string], a
    [[]byte] a [list byte], an unsigned integer a [Z] with its casts written
    out, a [(T, error)] result a [Result T]. *)

From Stdlib Require Import NArith ZArith String Ascii Bool Lia List.
From Stdlib.Strings Require Import Byte.
Import ListNotations.
Open Scope string_scope.
Open Scope list_scope.

(** ** Legacy Keccak-256 (golang.org/x/crypto/sha3, [NewLegacyKeccak256])

    The sponge over Keccak-f[1600] with rate 136 bytes.  Lanes are 64-bit
    words kept in [N]; every rotation is masked back to 64 bits.  The state
    is the list of the 25 lanes, lane (x, y) at position x + 5 y. *)
Module Keccak.
Local Open Scope N_scope.

Definition mask64 : N := 0xFFFFFFFFFFFFFFFF.

Definition rotl64 (x n : N) : N :=
  N.land (N.lor (N.shiftl x n) (N.shiftr x (64 - n))) mask64.

Definition RC : list N :=
  [ 0x0000000000000001; 0x0000000000008082; 0x800000000000808A;
    0x8000000080008000; 0x000000000000808B; 0x0000000080000001;
    0x8000000080008081; 0x8000000000008009; 0x000000000000008A;
    0x0000000000000088; 0x0000000080008009; 0x000000008000000A;
    0x000000008000808B; 0x800000000000008B; 0x8000000000008089;
    0x8000000000008003; 0x8000000000008002; 0x8000000000000080;
    0x000000000000800A; 0x800000008000000A; 0x8000000080008081;
    0x8000000000008080; 0x0000000080000001; 0x8000000080008008 ].

(** Rotation offsets, at position x + 5 y. *)
Definition rotc : list N :=
  [ 0; 1; 62; 28; 27;  36; 44; 6; 55; 20;  3; 10; 43; 25; 39;
    41; 45; 15; 21; 8;  18; 2; 61; 56; 14 ].

Definition lane (st : list N) (x y : nat) : N :=
  nth ((x mod 5) + 5 * (y mod 5))%nat st 0.

Definition positions : list nat := seq 0 25.

Definition theta (st : list N) : list N :=
  let C x := N.lxor (lane st x 0) (N.lxor (lane st x 1) (N.lxor (lane st x 2)
               (N.lxor (lane st x 3) (lane st x 4)))) in
  let D x := N.lxor (C (x + 4)%nat) (rotl64 (C (x + 1)%nat) 1) in
  map (fun i => N.lxor (nth i st 0) (D (i mod 5)%nat)) positions.

(** rho and pi in one pass: the lane written at (X, Y) is the lane read at
    (x, y) = (X + 3 Y mod 5, X), rotated by its offset. *)
Definition rhopi (st : list N) : list N :=
  map (fun i =>
         let X := (i mod 5)%nat in
         let Y := (i / 5)%nat in
         let x := ((X + 3 * Y) mod 5)%nat in
         rotl64 (lane st x X) (nth (x + 5 * X)%nat rotc 0)) positions.

Definition chi (st : list N) : list N :=
  map (fun i =>
         let x := (i mod 5)%nat in
         let y := (i / 5)%nat in
         N.lxor (lane st x y)
                (N.land (N.lxor (lane st (x + 1) y) mask64) (lane st (x + 2) y)))
      positions.

Definition iota (rc : N) (st : list N) : list N :=
  match st with
  | a :: rest => N.lxor a rc :: rest
  | [] => []
  end.

Definition round (st : list N) (rc : N) : list N := iota rc (chi (rhopi (theta st))).

Definition keccakF (st : list N) : list N := fold_left round RC st.

Definition rate : nat := 136.

(** Multi-rate padding; [dsbyte] is 0x01 for legacy Keccak (0x06 for SHA-3). *)
Definition pad (dsbyte : N) (msg : list N) : list N :=
  let q := (rate - (length msg mod rate))%nat in
  match q with
  | 1%nat => msg ++ [N.lor dsbyte 0x80]
  | _ => msg ++ [dsbyte] ++ repeat 0 (q - 2) ++ [0x80]
  end.

Definition le64 (bs : list N) : N := fold_right (fun b acc => b + 256 * acc) 0 bs.

Fixpoint lanesOf (n : nat) (bs : list N) : list N :=
  match n with
  | O => []
  | S n' => le64 (firstn 8 bs) :: lanesOf n' (skipn 8 bs)
  end.

Fixpoint xorInto (st blk : list N) : list N :=
  match st, blk with
  | s :: st', b :: blk' => N.lxor s b :: xorInto st' blk'
  | _, [] => st
  | [], _ => []
  end.

(** One permutation per block of [rate] bytes; [fuel] bounds the number of
    blocks and [sponge] passes one more than there are. *)
Fixpoint absorb (fuel : nat) (st : list N) (bs : list N) : list N :=
  match fuel with
  | O => st
  | S fuel' =>
      match bs with
      | [] => st
      | _ => absorb fuel' (keccakF (xorInto st (lanesOf 17 (firstn rate bs)))) (skipn rate bs)
      end
  end.

Fixpoint bytesLE (n : nat) (w : N) : list N :=
  match n with
  | O => []
  | S n' => (w mod 256) :: bytesLE n' (w / 256)
  end.

Definition sponge (dsbyte : N) (msg : list N) : list N :=
  let padded := pad dsbyte msg in
  let st := absorb (S (length padded / rate)) (repeat 0 25%nat) padded in
  flat_map (bytesLE 8) (firstn 4 st).

End Keccak.

Definition byteOfN (n : N) : byte :=
  match Byte.of_N n with Some b => b | None => x00 end.

Definition Keccak256 (msg : list byte) : list byte :=
  map byteOfN (Keccak.sponge 1 (map Byte.to_N msg)).

(** ** go-ethereum [common]: addresses and their hexadecimal form *)

(** [common.Address] is [[20]byte]; the model keeps the bytes in a list and
    states the length where a proof needs it. *)
Definition Address : Type := list byte.
Definition AddressLength : nat := 20.

(** [encoding/hex]: the value of a hexadecimal digit, of either case. *)
Definition reverseHexTable (c : ascii) : option N :=
  let n := N_of_ascii c in
  if (48 <=? n)%N && (n <=? 57)%N then Some (n - 48)%N
  else if (97 <=? n)%N && (n <=? 102)%N then Some (n - 87)%N
  else if (65 <=? n)%N && (n <=? 70)%N then Some (n - 55)%N
  else None.

(** [common.Hex2Bytes]: [hex.DecodeString] with its error dropped, which
    leaves the bytes decoded before the first character that is no digit. *)
Fixpoint Hex2Bytes (s : string) : list byte :=
  match s with
  | String p (String q rest) =>
      match reverseHexTable p, reverseHexTable q with
      | Some a, Some b => byteOfN (16 * a + b)%N :: Hex2Bytes rest
      | _, _ => []
      end
  | _ => []
  end.

Definition has0xPrefix (s : string) : bool :=
  match s with
  | String "0" (String c _) => Ascii.eqb c "x" || Ascii.eqb c "X"
  | _ => false
  end.

Definition FromHex (s : string) : list byte :=
  let s := if has0xPrefix s then String.substring 2 (String.length s - 2) s else s in
  let s := if Nat.odd (String.length s) then String "0" s else s in
  Hex2Bytes s.

(** [Address.SetBytes]: the last 20 bytes, padded with zeros on the left. *)
Definition BytesToAddress (b : list byte) : Address :=
  let b := if (AddressLength <? length b)%nat then skipn (length b - AddressLength) b else b in
  repeat x00 (AddressLength - length b) ++ b.

Definition HexToAddress (s : string) : Address := BytesToAddress (FromHex s).

Fixpoint isHex (s : string) : bool :=
  match s with
  | EmptyString => true
  | String c rest => match reverseHexTable c with Some _ => isHex rest | None => false end
  end.

(** [common.IsHexAddress]: forty hexadecimal digits after an optional 0x. *)
Definition IsHexAddress (s : string) : bool :=
  let s := if has0xPrefix s then String.substring 2 (String.length s - 2) s else s in
  (String.length s =? 2 * AddressLength)%nat && isHex s.

Definition hextable : string := "0123456789abcdef".

Definition hexDigit (n : N) : ascii :=
  match String.get (N.to_nat n) hextable with Some c => c | None => "0"%char end.

Fixpoint hexEncode (bs : list byte) : string :=
  match bs with
  | [] => EmptyString
  | b :: bs' =>
      String (hexDigit (Byte.to_N b / 16)) (String (hexDigit (Byte.to_N b mod 16)) (hexEncode bs'))
  end.

Definition nibbles (bs : list byte) : list N :=
  flat_map (fun b => [(Byte.to_N b / 16)%N; (Byte.to_N b mod 16)%N]) bs.

(** The loop of [checksumHex]: a letter is put in upper case when the hash
    nibble at its position exceeds 7. *)
Fixpoint applyChecksum (buf : string) (hash : list N) : string :=
  match buf, hash with
  | String c buf', h :: hash' =>
      String (if (57 <? N_of_ascii c)%N && (7 <? h)%N
              then ascii_of_N (N_of_ascii c - 32) else c)
             (applyChecksum buf' hash')
  | _, _ => buf
  end.

Definition checksumHex (a : Address) : string :=
  let buf := hexEncode a in
  String "0" (String "x" (applyChecksum buf (nibbles (Keccak256 (list_byte_of_string buf))))).

(** [Address.Hex]: the EIP-55 rendering. *)
Definition Hex (a : Address) : string := checksumHex a.

(** ** bech32 and [sdk.AccAddress] *)
Module Bech32.
Local Open Scope N_scope.

Definition charset : string := "qpzry9x8gf2tvdw0s3jn54khce6mua7l".

Definition gen : list N := [0x3b6a57b2; 0x26508e6d; 0x1ea119fa; 0x3d4233dd; 0x2a1462b3].

Definition polymodStep (chk v : N) : N :=
  let b := N.shiftr chk 25 in
  let chk := N.lxor (N.shiftl (N.land chk 0x1ffffff) 5) v in
  fold_left (fun c ig => if N.testbit b (fst ig) then N.lxor c (snd ig) else c)
            (combine [0; 1; 2; 3; 4] gen) chk.

Definition polymod (values : list N) : N := fold_left polymodStep values 1.

Definition hrpExpand (hrp : string) : list N :=
  let cs := map Byte.to_N (list_byte_of_string hrp) in
  map (fun c => N.shiftr c 5) cs ++ [0] ++ map (fun c => N.land c 31) cs.

Definition createChecksum (hrp : string) (data : list N) : list N :=
  let pm := N.lxor (polymod (hrpExpand hrp ++ data ++ [0; 0; 0; 0; 0; 0])) 1 in
  map (fun i => N.land (N.shiftr pm (5 * (5 - i))) 31) [0; 1; 2; 3; 4; 5].

Definition verifyChecksum (hrp : string) (data : list N) : bool :=
  polymod (hrpExpand hrp ++ data) =? 1.

Definition charOf (v : N) : ascii :=
  match String.get (N.to_nat v) charset with Some c => c | None => "q"%char end.

Definition Encode (hrp : string) (data : list N) : string :=
  (hrp ++ "1" ++ string_of_list_ascii (map charOf (data ++ createChecksum hrp data)))%string.

(** [ConvertBits(data, 8, 5, true)]: bytes regrouped into 5-bit values, the
    last group padded with zeros.  [acc] holds the [bits] pending bits. *)
Fixpoint regroup (acc bits : N) (data : list N) : list N :=
  match data with
  | [] => if 0 <? bits then [N.land (N.shiftl acc (5 - bits)) 31] else []
  | b :: rest =>
      let acc := N.lor (N.shiftl acc 8) b in
      let bits := bits + 8 in
      if 10 <=? bits
      then N.land (N.shiftr acc (bits - 5)) 31
           :: N.land (N.shiftr acc (bits - 10)) 31
           :: regroup (N.land acc (N.ones (bits - 10))) (bits - 10) rest
      else N.land (N.shiftr acc (bits - 5)) 31
           :: regroup (N.land acc (N.ones (bits - 5))) (bits - 5) rest
  end.

Definition ConvertAndEncode (hrp : string) (data : list byte) : string :=
  Encode hrp (regroup 0 0 (map Byte.to_N data)).

End Bech32.

(** [sdk.AccAddress] is a byte slice. *)
Definition AccAddress : Type := list byte.

(** The account prefix the chain configures ([GetBech32AccountAddrPrefix]). *)
Definition Bech32PrefixAccAddr : string := "sei".

(** [AccAddress.String]: empty for the empty address, bech32 otherwise. *)
Definition AccAddress_String (aa : AccAddress) : string :=
  match aa with
  | [] => ""
  | _ => Bech32.ConvertAndEncode Bech32PrefixAccAddr aa
  end.

(** ** Errors and results *)

(** The error values the handlers return.  [ErrorsNew msg] stands for an
    error made on the spot by [errors.New(msg)] and for any other error
    told apart by its message.  [ErrAccAddressFromBech32] stands for the
    error with which [sdk.AccAddressFromBech32] rejects a string; the texts
    of the SDK's errors are not modelled. *)
Inductive Error : Type :=
| ErrInvalidRequest       (* sdkerrors.ErrInvalidRequest *)
| ErrMustSpecifyPointer   (* var ErrMustSpecifyPointer *)
| ErrMustSpecifyPointee   (* var ErrMustSpecifyPointee *)
| ErrUnsupported          (* errors.ErrUnsupported *)
| ErrAccAddressFromBech32
| ErrorsNew (msg : string).

(** A Go result [(T, error)]: [Ok r] is [(r, nil)], [Err e] is [(nil, e)]. *)
Inductive Result (A : Type) : Type :=
| Ok (r : A)
| Err (e : Error).
Arguments Ok {A} r.
Arguments Err {A} e.

Definition uint32 (v : Z) : Z := (v mod 2 ^ 32)%Z.

(** ** Gas meters ([sdk.GasMeter]) *)

(** A meter has a limit, an amount consumed so far and the multiplier it
    scales charges by; an infinite meter has no limit and reports 0 for it. *)
Record GasMeter : Type := {
  gmInfinite : bool;
  gmLimit : Z;
  gmConsumed : Z;
  gmMultiplier : Z * Z
}.

Definition Limit (g : GasMeter) : Z := if gmInfinite g then 0%Z else gmLimit g.
Definition GasConsumed (g : GasMeter) : Z := gmConsumed g.

(** ** The chain state behind a query context *)

(** Modelled from the spec: the store of pointer records, of account
    associations and of stored code identifiers is not part of the sources
    (section 3 of the specification: PointerRecord, AccountAssociation,
    VersionState).  A record is (pointeeKey, pointerAddress, version), kept in
    one table per standard; the types of the two keys are those the getters
    of the keeper take and return in grpc_query.go. *)
Record PointerRecord (K P : Type) : Type := {
  pointeeKey : K;
  pointerAddress : P;
  version : Z
}.
Arguments pointeeKey {K P} _.
Arguments pointerAddress {K P} _.
Arguments version {K P} _.

Record AccountAssociation : Type := {
  nativeAddress : AccAddress;
  foreignAddress : Address
}.

Record ChainState : Type := {
  associations : list AccountAssociation;
  nativePointers : list (PointerRecord string Address);
  cw20Pointers : list (PointerRecord string Address);
  cw721Pointers : list (PointerRecord string Address);
  cw1155Pointers : list (PointerRecord string Address);
  erc20Pointers : list (PointerRecord Address AccAddress);
  erc721Pointers : list (PointerRecord Address AccAddress);
  erc1155Pointers : list (PointerRecord Address AccAddress);
  storedCodeIDs : list (Z * Z)
}.

(** [sdk.Context], as far as a query reads it: the gas meter it carries, the
    height of the block and the state snapshot.  [ctxGasMultiplier] stands
    for the gas parameters of the block, which no handler reads and
    [WithGasMeter] leaves as they are; a gas meter carries its own
    multiplier. *)
Record SdkContext : Type := {
  ctxGasMeter : GasMeter;
  ctxBlockHeight : Z;
  ctxGasMultiplier : Z * Z;
  ctxStore : ChainState
}.

Definition WithGasMeter (ctx : SdkContext) (m : GasMeter) : SdkContext :=
  {| ctxGasMeter := m;
     ctxBlockHeight := ctxBlockHeight ctx;
     ctxGasMultiplier := ctxGasMultiplier ctx;
     ctxStore := ctxStore ctx |}.

(** [sdk.NewGasMeterWithMultiplier]: a new finite meter with the given limit
    and nothing consumed, which scales charges by the multiplier of the
    meter the context carries ([ctx.GasMeter().Multiplier()]). *)
Definition NewGasMeterWithMultiplier (ctx : SdkContext) (limit : Z) : GasMeter :=
  {| gmInfinite := false;
     gmLimit := limit;
     gmConsumed := 0;
     gmMultiplier := gmMultiplier (ctxGasMeter ctx) |}.

(** ** Messages (x/evm/types) *)

(** Modelled from the spec: [types.PointerType] is declared in generated
    code that is not part of the sources.  It is a protobuf enum, an int32
    with seven named values, one per standard of the specification's
    AssetStandard; a request can carry any other int32. *)
Definition PointerType : Type := Z.
Definition PointerType_ERC20 : PointerType := 0%Z.
Definition PointerType_ERC721 : PointerType := 1%Z.
Definition PointerType_NATIVE : PointerType := 2%Z.
Definition PointerType_CW20 : PointerType := 3%Z.
Definition PointerType_CW721 : PointerType := 4%Z.
Definition PointerType_ERC1155 : PointerType := 5%Z.
Definition PointerType_CW1155 : PointerType := 6%Z.

Module QuerySeiAddressByEVMAddressRequest.
Record t : Type := mk { EvmAddress : string }.
End QuerySeiAddressByEVMAddressRequest.

Module QuerySeiAddressByEVMAddressResponse.
Record t : Type := mk { SeiAddress : string; Associated : bool }.
End QuerySeiAddressByEVMAddressResponse.

Module QueryEVMAddressBySeiAddressRequest.
Record t : Type := mk { SeiAddress : string }.
End QueryEVMAddressBySeiAddressRequest.

Module QueryEVMAddressBySeiAddressResponse.
Record t : Type := mk { EvmAddress : string; Associated : bool }.
End QueryEVMAddressBySeiAddressResponse.

Module QueryStaticCallRequest.
Record t : Type := mk { Data : list byte; To : string }.
End QueryStaticCallRequest.

Module QueryStaticCallResponse.
Record t : Type := mk { Data : list byte }.
End QueryStaticCallResponse.

Module QueryPointerRequest.
Record t : Type := mk { PointerType : PointerType; Pointee : string }.
End QueryPointerRequest.

Module QueryPointerResponse.
Record t : Type := mk { Pointer : string; Version : Z; Exists : bool }.
End QueryPointerResponse.

Module QueryPointerVersionRequest.
Record t : Type := mk { PointerType : PointerType }.
End QueryPointerVersionRequest.

Module QueryPointerVersionResponse.
Record t : Type := mk { Version : Z; CwCodeId : Z }.
End QueryPointerVersionResponse.

Module QueryPointeeRequest.
Record t : Type := mk { PointerType : PointerType; Pointer : string }.
End QueryPointeeRequest.

Module QueryPointeeResponse.
Record t : Type := mk { Pointee : string; Version : Z; Exists : bool }.
End QueryPointeeResponse.

(** ** The keeper, as the handlers see it *)

(** The gas limit of the query configuration ([Keeper.QueryConfig]). *)
Record QueryConfigT : Type := { GasLimit : Z }.

(** The account keeper: the one method the handlers call. *)
Record AccountKeeperI : Type := { GetModuleAddress : string -> AccAddress }.

(** The methods of [*Keeper] that grpc_query.go calls, with the argument and
    result types they have there.  A getter returns a value, a version and
    whether a record was found.  [StaticCallEVM] also returns the state of
    the gas meter of the context it ran under once the call is over: the
    meter is a shared object that the execution charges. *)
Record Keeper : Type := {
  QueryConfig : QueryConfigT;
  AccountKeeper : AccountKeeperI;
  GetSeiAddress : SdkContext -> Address -> AccAddress * bool;
  GetEVMAddress : SdkContext -> AccAddress -> Address * bool;
  StaticCallEVM :
    SdkContext -> AccAddress -> Address -> list byte -> Result (list byte) * GasMeter;
  GetERC20NativePointer : SdkContext -> string -> Address * Z * bool;
  GetERC20CW20Pointer : SdkContext -> string -> Address * Z * bool;
  GetERC721CW721Pointer : SdkContext -> string -> Address * Z * bool;
  GetERC1155CW1155Pointer : SdkContext -> string -> Address * Z * bool;
  GetCW20ERC20Pointer : SdkContext -> Address -> AccAddress * Z * bool;
  GetCW721ERC721Pointer : SdkContext -> Address -> AccAddress * Z * bool;
  GetCW1155ERC1155Pointer : SdkContext -> Address -> AccAddress * Z * bool;
  GetStoredPointerCodeID : SdkContext -> PointerType -> Z;
  GetNativePointee : SdkContext -> string -> string * Z * bool;
  GetCW20Pointee : SdkContext -> Address -> string * Z * bool;
  GetCW721Pointee : SdkContext -> Address -> string * Z * bool;
  GetCW1155Pointee : SdkContext -> Address -> string * Z * bool;
  GetERC20Pointee : SdkContext -> string -> Address * Z * bool;
  GetERC721Pointee : SdkContext -> string -> Address * Z * bool;
  GetERC1155Pointee : SdkContext -> string -> Address * Z * bool
}.

(** [type Querier struct { *Keeper }] and [NewQuerier]. *)
Record Querier : Type := NewQuerier { q_Keeper : Keeper }.

(** What grpc_query.go imports and the sources do not contain: the bech32
    decoder of the SDK, the name of the module, and the current versions of
    the seven artifacts.  Six versions are constants; [cw20.CurrentVersion]
    is a function of the context. *)
Class Imports : Type := {
  AccAddressFromBech32 : string -> Result AccAddress;
  ModuleName : string;
  native_CurrentVersion : Z;
  cw20_CurrentVersion : SdkContext -> Z;
  cw721_CurrentVersion : Z;
  cw1155_CurrentVersion : Z;
  erc20_CurrentVersion : Z;
  erc721_CurrentVersion : Z;
  erc1155_CurrentVersion : Z
}.

(** What a call of [StaticCall] leaves behind: the state of the gas meter of
    the context the caller passed in, and the calls made into the EVM, each
    with the context, caller, target and call data it was given. *)
Record EVMCall : Type := {
  callCtx : SdkContext;
  callFrom : AccAddress;
  callTo : Address;
  callData : list byte
}.

Record Effects : Type := {
  gasMeterAfter : GasMeter;
  evmCalls : list EVMCall
}.

(** ** The handlers *)
Section Handlers.
Context {imports : Imports}.

Definition SeiAddressByEVMAddress (q : Querier) (ctx : SdkContext)
    (req : QuerySeiAddressByEVMAddressRequest.t)
    : Result QuerySeiAddressByEVMAddressResponse.t :=
  if String.eqb (QuerySeiAddressByEVMAddressRequest.EvmAddress req) "" then
    Err ErrInvalidRequest
  else
    let evmAddr := HexToAddress (QuerySeiAddressByEVMAddressRequest.EvmAddress req) in
    let '(addr, found) := GetSeiAddress (q_Keeper q) ctx evmAddr in
    if negb found then
      Ok (QuerySeiAddressByEVMAddressResponse.mk "" false)
    else
      Ok (QuerySeiAddressByEVMAddressResponse.mk (AccAddress_String addr) true).

Definition EVMAddressBySeiAddress (q : Querier) (ctx : SdkContext)
    (req : QueryEVMAddressBySeiAddressRequest.t)
    : Result QueryEVMAddressBySeiAddressResponse.t :=
  if String.eqb (QueryEVMAddressBySeiAddressRequest.SeiAddress req) "" then
    Err ErrInvalidRequest
  else
    match AccAddressFromBech32 (QueryEVMAddressBySeiAddressRequest.SeiAddress req) with
    | Err err => Err err
    | Ok seiAddr =>
        let '(addr, found) := GetEVMAddress (q_Keeper q) ctx seiAddr in
        if negb found then
          Ok (QueryEVMAddressBySeiAddressResponse.mk "" false)
        else
          Ok (QueryEVMAddressBySeiAddressResponse.mk (Hex addr) true)
    end.

(** The context the call runs under: the one passed in, or a copy with a new
    meter when the meter passed in reports a zero limit (lines 71-73). *)
Definition staticCallContext (q : Querier) (ctx : SdkContext) : SdkContext :=
  if (Limit (ctxGasMeter ctx) =? 0)%Z then
    WithGasMeter ctx (NewGasMeterWithMultiplier ctx (GasLimit (QueryConfig (q_Keeper q))))
  else ctx.

Definition StaticCall (q : Querier) (ctx : SdkContext) (req : QueryStaticCallRequest.t)
    : Result QueryStaticCallResponse.t * Effects :=
  if String.eqb (QueryStaticCallRequest.To req) "" then
    (Err (ErrorsNew "cannot use static call to create contracts"),
     {| gasMeterAfter := ctxGasMeter ctx; evmCalls := [] |})
  else
    let ctx' := staticCallContext q ctx in
    let to := HexToAddress (QueryStaticCallRequest.To req) in
    let from := GetModuleAddress (AccountKeeper (q_Keeper q)) ModuleName in
    let '(res, meter) :=
      StaticCallEVM (q_Keeper q) ctx' from to (QueryStaticCallRequest.Data req) in
    let effects :=
      {| gasMeterAfter :=
           (* the meter of [ctx] is charged only when the call ran under it *)
           if (Limit (ctxGasMeter ctx) =? 0)%Z then ctxGasMeter ctx else meter;
         evmCalls :=
           [ {| callCtx := ctx'; callFrom := from; callTo := to;
                callData := QueryStaticCallRequest.Data req |} ] |} in
    match res with
    | Err err => (Err err, effects)
    | Ok res => (Ok (QueryStaticCallResponse.mk res), effects)
    end.

Definition Pointer (q : Querier) (ctx : SdkContext) (req : QueryPointerRequest.t)
    : Result QueryPointerResponse.t :=
  let k := q_Keeper q in
  let pointee := QueryPointerRequest.Pointee req in
  let pointerType := QueryPointerRequest.PointerType req in
  if String.eqb pointee "" then Err ErrMustSpecifyPointee
  else if (pointerType =? PointerType_NATIVE)%Z then
    let '(p, v, e) := GetERC20NativePointer k ctx pointee in
    if negb e then Ok (QueryPointerResponse.mk "" 0 e)
    else Ok (QueryPointerResponse.mk (Hex p) (uint32 v) e)
  else if (pointerType =? PointerType_CW20)%Z then
    let '(p, v, e) := GetERC20CW20Pointer k ctx pointee in
    if negb e then Ok (QueryPointerResponse.mk "" 0 e)
    else Ok (QueryPointerResponse.mk (Hex p) (uint32 v) e)
  else if (pointerType =? PointerType_CW721)%Z then
    let '(p, v, e) := GetERC721CW721Pointer k ctx pointee in
    if negb e then Ok (QueryPointerResponse.mk "" 0 e)
    else Ok (QueryPointerResponse.mk (Hex p) (uint32 v) e)
  else if (pointerType =? PointerType_CW1155)%Z then
    let '(p, v, e) := GetERC1155CW1155Pointer k ctx pointee in
    if negb e then Ok (QueryPointerResponse.mk "" 0 e)
    else Ok (QueryPointerResponse.mk (Hex p) (uint32 v) e)
  else if (pointerType =? PointerType_ERC20)%Z then
    let '(p, v, e) := GetCW20ERC20Pointer k ctx (HexToAddress pointee) in
    if negb e then Ok (QueryPointerResponse.mk "" 0 e)
    else Ok (QueryPointerResponse.mk (AccAddress_String p) (uint32 v) e)
  else if (pointerType =? PointerType_ERC721)%Z then
    let '(p, v, e) := GetCW721ERC721Pointer k ctx (HexToAddress pointee) in
    if negb e then Ok (QueryPointerResponse.mk "" 0 e)
    else Ok (QueryPointerResponse.mk (AccAddress_String p) (uint32 v) e)
  else if (pointerType =? PointerType_ERC1155)%Z then
    let '(p, v, e) := GetCW1155ERC1155Pointer k ctx (HexToAddress pointee) in
    if negb e then Ok (QueryPointerResponse.mk "" 0 e)
    else Ok (QueryPointerResponse.mk (AccAddress_String p) (uint32 v) e)
  else Err ErrUnsupported.

Definition PointerVersion (q : Querier) (ctx : SdkContext)
    (req : QueryPointerVersionRequest.t) : Result QueryPointerVersionResponse.t :=
  let k := q_Keeper q in
  let pointerType := QueryPointerVersionRequest.PointerType req in
  if (pointerType =? PointerType_NATIVE)%Z then
    Ok (QueryPointerVersionResponse.mk (uint32 native_CurrentVersion) 0)
  else if (pointerType =? PointerType_CW20)%Z then
    Ok (QueryPointerVersionResponse.mk (uint32 (cw20_CurrentVersion ctx)) 0)
  else if (pointerType =? PointerType_CW721)%Z then
    Ok (QueryPointerVersionResponse.mk (uint32 cw721_CurrentVersion) 0)
  else if (pointerType =? PointerType_CW1155)%Z then
    Ok (QueryPointerVersionResponse.mk (uint32 cw1155_CurrentVersion) 0)
  else if (pointerType =? PointerType_ERC20)%Z then
    Ok (QueryPointerVersionResponse.mk (uint32 erc20_CurrentVersion)
          (GetStoredPointerCodeID k ctx PointerType_ERC20))
  else if (pointerType =? PointerType_ERC721)%Z then
    Ok (QueryPointerVersionResponse.mk (uint32 erc721_CurrentVersion)
          (GetStoredPointerCodeID k ctx PointerType_ERC721))
  else if (pointerType =? PointerType_ERC1155)%Z then
    Ok (QueryPointerVersionResponse.mk (uint32 erc1155_CurrentVersion)
          (GetStoredPointerCodeID k ctx PointerType_ERC1155))
  else Err ErrUnsupported.

Definition Pointee (q : Querier) (ctx : SdkContext) (req : QueryPointeeRequest.t)
    : Result QueryPointeeResponse.t :=
  let k := q_Keeper q in
  let pointer := QueryPointeeRequest.Pointer req in
  let pointerType := QueryPointeeRequest.PointerType req in
  if String.eqb pointer "" then Err ErrMustSpecifyPointer
  else if (pointerType =? PointerType_NATIVE)%Z then
    let '(p, v, e) := GetNativePointee k ctx pointer in
    if negb e then Ok (QueryPointeeResponse.mk "" 0 e)
    else Ok (QueryPointeeResponse.mk p (uint32 v) e)
  else if (pointerType =? PointerType_CW20)%Z then
    let '(p, v, e) := GetCW20Pointee k ctx (HexToAddress pointer) in
    if negb e then Ok (QueryPointeeResponse.mk "" 0 e)
    else Ok (QueryPointeeResponse.mk p (uint32 v) e)
  else if (pointerType =? PointerType_CW721)%Z then
    let '(p, v, e) := GetCW721Pointee k ctx (HexToAddress pointer) in
    if negb e then Ok (QueryPointeeResponse.mk "" 0 e)
    else Ok (QueryPointeeResponse.mk p (uint32 v) e)
  else if (pointerType =? PointerType_CW1155)%Z then
    let '(p, v, e) := GetCW1155Pointee k ctx (HexToAddress pointer) in
    if negb e then Ok (QueryPointeeResponse.mk "" 0 e)
    else Ok (QueryPointeeResponse.mk p (uint32 v) e)
  else if (pointerType =? PointerType_ERC20)%Z then
    let '(p, v, e) := GetERC20Pointee k ctx pointer in
    if negb e then Ok (QueryPointeeResponse.mk "" 0 e)
    else Ok (QueryPointeeResponse.mk (Hex p) (uint32 v) e)
  else if (pointerType =? PointerType_ERC721)%Z then
    let '(p, v, e) := GetERC721Pointee k ctx pointer in
    if negb e then Ok (QueryPointeeResponse.mk "" 0 e)
    else Ok (QueryPointeeResponse.mk (Hex p) (uint32 v) e)
  else if (pointerType =? PointerType_ERC1155)%Z then
    let '(p, v, e) := GetERC1155Pointee k ctx pointer in
    if negb e then Ok (QueryPointeeResponse.mk "" 0 e)
    else Ok (QueryPointeeResponse.mk (Hex p) (uint32 v) e)
  else Err ErrUnsupported.

End Handlers.

(** ** The registries behind the keeper *)

Fixpoint bytes_eqb (a b : list byte) : bool :=
  match a, b with
  | [], [] => true
  | x :: a', y :: b' => Byte.eqb x y && bytes_eqb a' b'
  | _, _ => false
  end.

(** The zero value of [common.Address]. *)
Definition zeroAddress : Address := repeat x00 AddressLength.

(** The record of a table whose key [key] equals [x], if there is one. *)
Definition lookupBy {R X : Type} (eqb : X -> X -> bool) (key : R -> X) (x : X)
    (table : list R) : option R :=
  find (fun r => eqb (key r) x) table.

(** What a getter returns for a lookup: the wanted side of the record with
    its version, or zero values and [false]. *)
Definition found {K P V : Type} (zero : V) (side : PointerRecord K P -> V)
    (o : option (PointerRecord K P)) : V * Z * bool :=
  match o with
  | Some r => (side r, version r, true)
  | None => (zero, 0%Z, false)
  end.

(** Modelled from the spec: the getters of the keeper (x/evm/keeper, outside
    grpc_query.go) over the tables of [ChainState].  A forward getter finds
    the record by its pointee key and a backward getter by its pointer
    address (specification 4.2); a getter that takes an address as a string
    compares it the way the handlers present addresses, a hexadecimal
    address through [HexToAddress] and an account address by its bech32
    form.  [GetStoredPointerCodeID] is the stored code identifier of a
    standard, 0 when none was stored (specification 4.3).  The lookup of an
    association is by either address (specification 4.1).  The
    configuration, the account keeper and the EVM entry point are taken as
    given. *)
Definition tableKeeper (cfg : QueryConfigT) (ak : AccountKeeperI)
    (evm : SdkContext -> AccAddress -> Address -> list byte -> Result (list byte) * GasMeter)
    : Keeper :=
  let fwdS (table : ChainState -> list (PointerRecord string Address)) ctx key :=
    found zeroAddress pointerAddress (lookupBy String.eqb pointeeKey key (table (ctxStore ctx))) in
  let bwdA (table : ChainState -> list (PointerRecord string Address)) ctx addr :=
    found "" pointeeKey (lookupBy bytes_eqb pointerAddress addr (table (ctxStore ctx))) in
  let fwdA (table : ChainState -> list (PointerRecord Address AccAddress)) ctx addr :=
    found [] pointerAddress (lookupBy bytes_eqb pointeeKey addr (table (ctxStore ctx))) in
  let bwdS (table : ChainState -> list (PointerRecord Address AccAddress)) ctx s :=
    found zeroAddress pointeeKey
      (lookupBy String.eqb (fun r => AccAddress_String (pointerAddress r)) s
         (table (ctxStore ctx))) in
  {| QueryConfig := cfg;
     AccountKeeper := ak;
     GetSeiAddress ctx evmAddr :=
       match lookupBy bytes_eqb foreignAddress evmAddr (associations (ctxStore ctx)) with
       | Some a => (nativeAddress a, true)
       | None => ([], false)
       end;
     GetEVMAddress ctx seiAddr :=
       match lookupBy bytes_eqb nativeAddress seiAddr (associations (ctxStore ctx)) with
       | Some a => (foreignAddress a, true)
       | None => (zeroAddress, false)
       end;
     StaticCallEVM := evm;
     GetERC20NativePointer := fwdS nativePointers;
     GetERC20CW20Pointer := fwdS cw20Pointers;
     GetERC721CW721Pointer := fwdS cw721Pointers;
     GetERC1155CW1155Pointer := fwdS cw1155Pointers;
     GetCW20ERC20Pointer := fwdA erc20Pointers;
     GetCW721ERC721Pointer := fwdA erc721Pointers;
     GetCW1155ERC1155Pointer := fwdA erc1155Pointers;
     GetStoredPointerCodeID ctx pointerType :=
       match find (fun e => (fst e =? pointerType)%Z) (storedCodeIDs (ctxStore ctx)) with
       | Some e => snd e
       | None => 0%Z
       end;
     GetNativePointee ctx erc20Address :=
       bwdA nativePointers ctx (HexToAddress erc20Address);
     GetCW20Pointee := bwdA cw20Pointers;
     GetCW721Pointee := bwdA cw721Pointers;
     GetCW1155Pointee := bwdA cw1155Pointers;
     GetERC20Pointee := bwdS erc20Pointers;
     GetERC721Pointee := bwdS erc721Pointers;
     GetERC1155Pointee := bwdS erc1155Pointers |}.

(** The invariant of a table (specification 3, PointerRecord): the mapping
    from pointee to pointer and its inverse are both functions.  Keys are
    non-empty, as every query requires, and a hexadecimal address has its
    twenty bytes. *)
Record wfHexPointers (table : list (PointerRecord string Address)) : Prop := {
  hexPointees_unique : NoDup (map pointeeKey table);
  hexPointers_unique : NoDup (map pointerAddress table);
  hexPointees_nonempty : Forall (fun r => pointeeKey r <> "") table;
  hexPointers_length : Forall (fun r => length (pointerAddress r) = AddressLength) table
}.

Record wfBech32Pointers (table : list (PointerRecord Address AccAddress)) : Prop := {
  bechPointees_unique : NoDup (map pointeeKey table);
  bechPointers_unique :
    NoDup (map (fun r => AccAddress_String (pointerAddress r)) table);
  bechPointers_nonempty : Forall (fun r => pointerAddress r <> []) table;
  bechPointees_length : Forall (fun r => length (pointeeKey r) = AddressLength) table
}.

Record wfChainState (st : ChainState) : Prop := {
  wf_native : wfHexPointers (nativePointers st);
  wf_cw20 : wfHexPointers (cw20Pointers st);
  wf_cw721 : wfHexPointers (cw721Pointers st);
  wf_cw1155 : wfHexPointers (cw1155Pointers st);
  wf_erc20 : wfBech32Pointers (erc20Pointers st);
  wf_erc721 : wfBech32Pointers (erc721Pointers st);
  wf_erc1155 : wfBech32Pointers (erc1155Pointers st)
}.

(** ** A decoder of account addresses

    [sdk.AccAddressFromBech32] is a parameter of the handlers; this is the
    decoder the scenarios below instantiate it with.  It accepts a string of
    8 to 1023 printable characters of one case with a separator, data
    characters of the bech32 alphabet and a valid checksum, whose prefix is
    the account prefix and whose payload regroups into 1 to 255 bytes.  It
    models which strings are accepted and what they decode to; every
    rejection is the one value [ErrAccAddressFromBech32]. *)
Module Bech32Decoder.
Local Open Scope N_scope.

Definition toLower (c : ascii) : ascii :=
  let n := N_of_ascii c in
  if (65 <=? n) && (n <=? 90) then ascii_of_N (n + 32) else c.

Fixpoint indexOf (c : ascii) (s : list ascii) (i : N) : option N :=
  match s with
  | [] => None
  | d :: rest => if Ascii.eqb c d then Some i else indexOf c rest (i + 1)
  end.

Fixpoint lastIndexOf (c : ascii) (s : list ascii) (i : nat) (last : option nat) : option nat :=
  match s with
  | [] => last
  | d :: rest => lastIndexOf c rest (S i) (if Ascii.eqb c d then Some i else last)
  end.

Fixpoint values (data : list ascii) : option (list N) :=
  match data with
  | [] => Some []
  | c :: rest =>
      match indexOf c (list_ascii_of_string Bech32.charset) 0, values rest with
      | Some v, Some vs => Some (v :: vs)
      | _, _ => None
      end
  end.

Definition Decode (bech : string) : option (string * list N) :=
  let cs := list_ascii_of_string bech in
  let n := length cs in
  let code c := N_of_ascii c in
  if (n <? 8)%nat || (1023 <? n)%nat then None
  else if negb (forallb (fun c => (33 <=? code c) && (code c <=? 126)) cs) then None
  else if existsb (fun c => (97 <=? code c) && (code c <=? 122)) cs
          && existsb (fun c => (65 <=? code c) && (code c <=? 90)) cs then None
  else
    let cs := map toLower cs in
    match lastIndexOf "1" cs 0 None with
    | None => None
    | Some one =>
        if (one <? 1)%nat || (n <? one + 7)%nat then None
        else
          let hrp := string_of_list_ascii (firstn one cs) in
          match values (skipn (S one) cs) with
          | None => None
          | Some vs =>
              if Bech32.verifyChecksum hrp vs
              then Some (hrp, firstn (length vs - 6) vs)
              else None
          end
    end.

(** [ConvertBits(data, 5, 8, false)]: an incomplete last group must be
    shorter than 5 bits and zero. *)
Fixpoint ungroup (acc bits : N) (data : list N) : option (list N) :=
  match data with
  | [] => if (5 <=? bits) || negb (acc =? 0) then None else Some []
  | v :: rest =>
      let acc := N.lor (N.shiftl acc 5) v in
      let bits := bits + 5 in
      if 8 <=? bits
      then option_map (cons (N.shiftr acc (bits - 8)))
             (ungroup (N.land acc (N.ones (bits - 8))) (bits - 8) rest)
      else ungroup acc bits rest
  end.

(** The bytes of an accepted address.  A string of white space only is
    rejected with the others: it has a character outside the printable
    range or fewer than 8 characters. *)
Definition decodeAccAddress (address : string) : option AccAddress :=
  match Decode address with
  | None => None
  | Some (hrp, data) =>
      match ungroup 0 0 data with
      | None => None
      | Some bz =>
          if negb (String.eqb hrp Bech32PrefixAccAddr) then None
          else if (length bz =? 0)%nat then None
          else if (255 <? length bz)%nat then None
          else Some (map byteOfN bz)
      end
  end.

Definition AccAddressFromBech32 (address : string) : Result AccAddress :=
  match decodeAccAddress address with
  | Some bz => Ok bz
  | None => Err ErrAccAddressFromBech32
  end.

End Bech32Decoder.

(** ** Notions of the specification *)

(** The seven tags of AssetStandard, in the order of the switches. *)
Definition knownStandards : list PointerType :=
  [ PointerType_NATIVE; PointerType_CW20; PointerType_CW721; PointerType_CW1155;
    PointerType_ERC20; PointerType_ERC721; PointerType_ERC1155 ].

(** The standards whose pointer is instantiated from stored code and lives
    at an account address: the pointee is then a hexadecimal address. *)
Definition codeTemplateStandards : list PointerType :=
  [ PointerType_ERC20; PointerType_ERC721; PointerType_ERC1155 ].

(** The standards whose current version is a constant of the binary. *)
Definition fixedVersionStandards : list PointerType :=
  [ PointerType_NATIVE; PointerType_CW721; PointerType_CW1155;
    PointerType_ERC20; PointerType_ERC721; PointerType_ERC1155 ].

Definition isCodeTemplate (standard : PointerType) : bool :=
  existsb (Z.eqb standard) codeTemplateStandards.

(** The form in which a round trip gives a key back: a hexadecimal address
    comes back parsed and rendered anew, any other key as it was. *)
Definition canonicalPointee (standard : PointerType) (pointeeKey : string) : string :=
  if isCodeTemplate standard then Hex (HexToAddress pointeeKey) else pointeeKey.

Definition canonicalPointer (standard : PointerType) (pointerAddress : string) : string :=
  if isCodeTemplate standard then pointerAddress else Hex (HexToAddress pointerAddress).

(** The reverse registry is the inverse of the forward one, for each of the
    three shapes of getters.  Keys a getter reports are non-empty and
    addresses have twenty bytes. *)
Definition InverseNative (fwd : string -> Address * Z * bool)
    (bwd : string -> string * Z * bool) : Prop :=
  (forall key a v, fwd key = (a, v, true) ->
     length a = AddressLength /\ exists v', bwd (Hex a) = (key, v', true)) /\
  (forall s key v, bwd s = (key, v, true) ->
     key <> "" /\ exists v', fwd key = (HexToAddress s, v', true)).

Definition InverseCW (fwd : string -> Address * Z * bool)
    (bwd : Address -> string * Z * bool) : Prop :=
  (forall key a v, fwd key = (a, v, true) ->
     length a = AddressLength /\ exists v', bwd a = (key, v', true)) /\
  (forall a key v, bwd a = (key, v, true) ->
     key <> "" /\ exists v', fwd key = (a, v', true)).

Definition InverseERC (fwd : Address -> AccAddress * Z * bool)
    (bwd : string -> Address * Z * bool) : Prop :=
  (forall a p v, fwd a = (p, v, true) ->
     AccAddress_String p <> "" /\ exists v', bwd (AccAddress_String p) = (a, v', true)) /\
  (forall s a v, bwd s = (a, v, true) ->
     length a = AddressLength /\
     exists p v', fwd a = (p, v', true) /\ AccAddress_String p = s).

Record RegistryInverse (k : Keeper) (ctx : SdkContext) : Prop := {
  inverse_native : InverseNative (GetERC20NativePointer k ctx) (GetNativePointee k ctx);
  inverse_cw20 : InverseCW (GetERC20CW20Pointer k ctx) (GetCW20Pointee k ctx);
  inverse_cw721 : InverseCW (GetERC721CW721Pointer k ctx) (GetCW721Pointee k ctx);
  inverse_cw1155 : InverseCW (GetERC1155CW1155Pointer k ctx) (GetCW1155Pointee k ctx);
  inverse_erc20 : InverseERC (GetCW20ERC20Pointer k ctx) (GetERC20Pointee k ctx);
  inverse_erc721 : InverseERC (GetCW721ERC721Pointer k ctx) (GetERC721Pointee k ctx);
  inverse_erc1155 : InverseERC (GetCW1155ERC1155Pointer k ctx) (GetERC1155Pointee k ctx)
}.

(** Whether the registry holds a record for the key of a [Pointer] request,
    respectively of a [Pointee] request: the answer of the getter of the
    standard, asked the way the handler asks it. *)
Definition pointerRegistered (k : Keeper) (ctx : SdkContext)
    (standard : PointerType) (pointee : string) : bool :=
  if (standard =? PointerType_NATIVE)%Z then snd (GetERC20NativePointer k ctx pointee)
  else if (standard =? PointerType_CW20)%Z then snd (GetERC20CW20Pointer k ctx pointee)
  else if (standard =? PointerType_CW721)%Z then snd (GetERC721CW721Pointer k ctx pointee)
  else if (standard =? PointerType_CW1155)%Z then snd (GetERC1155CW1155Pointer k ctx pointee)
  else if (standard =? PointerType_ERC20)%Z then
    snd (GetCW20ERC20Pointer k ctx (HexToAddress pointee))
  else if (standard =? PointerType_ERC721)%Z then
    snd (GetCW721ERC721Pointer k ctx (HexToAddress pointee))
  else if (standard =? PointerType_ERC1155)%Z then
    snd (GetCW1155ERC1155Pointer k ctx (HexToAddress pointee))
  else false.

Definition pointeeRegistered (k : Keeper) (ctx : SdkContext)
    (standard : PointerType) (pointer : string) : bool :=
  if (standard =? PointerType_NATIVE)%Z then snd (GetNativePointee k ctx pointer)
  else if (standard =? PointerType_CW20)%Z then snd (GetCW20Pointee k ctx (HexToAddress pointer))
  else if (standard =? PointerType_CW721)%Z then snd (GetCW721Pointee k ctx (HexToAddress pointer))
  else if (standard =? PointerType_CW1155)%Z then
    snd (GetCW1155Pointee k ctx (HexToAddress pointer))
  else if (standard =? PointerType_ERC20)%Z then snd (GetERC20Pointee k ctx pointer)
  else if (standard =? PointerType_ERC721)%Z then snd (GetERC721Pointee k ctx pointer)
  else if (standard =? PointerType_ERC1155)%Z then snd (GetERC1155Pointee k ctx pointer)
  else false.



(** The gas a call charged to the meter of its caller. *)
Definition gasUsed (before after : GasMeter) : Z :=
  (GasConsumed after - GasConsumed before)%Z.

(** Whether a code identifier was ever stored for a standard. *)
Definition codeStored (st : ChainState) (standard : PointerType) : bool :=
  existsb (fun e => (fst e =? standard)%Z) (storedCodeIDs st).

(** The version a [PointerVersion] result reports. *)
Definition reportedVersion (r : Result QueryPointerVersionResponse.t) : option Z :=
  match r with
  | Ok resp => Some (QueryPointerVersionResponse.Version resp)
  | Err _ => None
  end.

(** The standards whose pointer is a contract of the EVM and whose pointee is
    a contract address of the other environment: [Pointee] parses the pointer
    it is asked about with [HexToAddress]. *)
Definition hexPointerStandards : list PointerType :=
  [ PointerType_CW20; PointerType_CW721; PointerType_CW1155 ].

(** A string with its ASCII letters in lower case. *)
Fixpoint lowerASCII (s : string) : string :=
  match s with
  | EmptyString => EmptyString
  | String c rest => String (Bech32Decoder.toLower c) (lowerASCII rest)
  end.

(** The digits of a hexadecimal string, without the prefix [FromHex] drops. *)
Definition strip0x (s : string) : string :=
  if has0xPrefix s then String.substring 2 (String.length s - 2) s else s.

(** The two lookups of the account associations are inverse to each other
    (specification 3, AccountAssociation: a bijection).  An EVM address has
    twenty bytes and an associated account address is not empty. *)
Definition InverseAssociation (k : Keeper) (ctx : SdkContext) : Prop :=
  (forall seiAddr evmAddr,
     GetEVMAddress k ctx seiAddr = (evmAddr, true) ->
     length evmAddr = AddressLength /\ GetSeiAddress k ctx evmAddr = (seiAddr, true)) /\
  (forall evmAddr seiAddr,
     GetSeiAddress k ctx evmAddr = (seiAddr, true) ->
     seiAddr <> [] /\ GetEVMAddress k ctx seiAddr = (evmAddr, true)).

(** The invariant of the table of associations: no address occurs twice on
    either side. *)
Record wfAssociations (table : list AccountAssociation) : Prop := {
  native_unique : NoDup (map nativeAddress table);
  foreign_unique : NoDup (map foreignAddress table);
  native_nonempty : Forall (fun a => nativeAddress a <> []) table;
  foreign_length : Forall (fun a => length (foreignAddress a) = AddressLength) table
}.

(** The result [StaticCall] makes of the result of the EVM call (lines
    76-79): the error as it is, or a response around the returned bytes. *)
Definition staticCallResponse (r : Result (list byte)) : Result QueryStaticCallResponse.t :=
  match r with
  | Ok res => Ok (QueryStaticCallResponse.mk res)
  | Err err => Err err
  end.

(** What the keeper's EVM entry point returns for a recorded call. *)
Definition runCall (k : Keeper) (c : EVMCall) : Result (list byte) * GasMeter :=
  StaticCallEVM k (callCtx c) (callFrom c) (callTo c) (callData c).

(** ** A scenario: one chain state, three contexts over it, and a querier *)
Module Scenario.

(** The imports of the scenario.  Modelled from the spec: the version of the
    CW20 pointer is read off the chain, here off the height at which its
    second version activates (specification 4.3); the six others are
    constants. *)
Definition imports : Imports :=
  {| AccAddressFromBech32 := Bech32Decoder.AccAddressFromBech32;
     ModuleName := "evm";
     native_CurrentVersion := 1;
     cw20_CurrentVersion := fun ctx => if (ctxBlockHeight ctx <? 1000)%Z then 1%Z else 2%Z;
     cw721_CurrentVersion := 1;
     cw1155_CurrentVersion := 1;
     erc20_CurrentVersion := 1;
     erc721_CurrentVersion := 6;
     erc1155_CurrentVersion := 1 |}.

Definition moduleAddress : AccAddress := HexToAddress "0x1111111111111111111111111111111111111111".

Definition accountKeeper : AccountKeeperI :=
  {| GetModuleAddress := fun name => if String.eqb name "evm" then moduleAddress else [] |}.

(** An engine that returns its call data and charges 21000 gas to the meter
    of the context it runs under. *)
Definition echoEVM (ctx : SdkContext) (from : AccAddress) (to : Address) (data : list byte)
    : Result (list byte) * GasMeter :=
  (Ok data,
   {| gmInfinite := gmInfinite (ctxGasMeter ctx);
      gmLimit := gmLimit (ctxGasMeter ctx);
      gmConsumed := (gmConsumed (ctxGasMeter ctx) + 21000)%Z;
      gmMultiplier := gmMultiplier (ctxGasMeter ctx) |}).

Definition token : Address := HexToAddress "0x5aaeb6053f3e94c9b9a09f33669435e7ef1beaed".
Definition shadow : Address := HexToAddress "0xfb6916095ca1df60bb79ce92ce3ea74c37c5d359".
Definition contract : AccAddress := HexToAddress "0xdbf03b407c01e7cd3cbea99509d93f8dddc8c6fb".
Definition account : AccAddress := HexToAddress "0xd1220a0cf47c7b9be7a2e6ba89f429762e7b9adb".

Definition state : ChainState :=
  {| associations := [ {| nativeAddress := account; foreignAddress := shadow |} ];
     nativePointers :=
       [ {| pointeeKey := "usei"; pointerAddress := shadow; version := 1%Z |} ];
     cw20Pointers :=
       [ {| pointeeKey := AccAddress_String contract; pointerAddress := token;
            version := 1%Z |} ];
     cw721Pointers := [];
     cw1155Pointers := [];
     erc20Pointers :=
       [ {| pointeeKey := token; pointerAddress := contract; version := 2%Z |} ];
     erc721Pointers := [];
     erc1155Pointers := [];
     storedCodeIDs := [ (PointerType_ERC20, 7%Z) ] |}.

Definition infiniteMeter : GasMeter :=
  {| gmInfinite := true; gmLimit := 0; gmConsumed := 0; gmMultiplier := (1%Z, 1%Z) |}.

Definition partlyUsedMeter : GasMeter :=
  {| gmInfinite := false; gmLimit := 1000; gmConsumed := 400; gmMultiplier := (1%Z, 1%Z) |}.

(** A query context as the node makes it, with an infinite meter. *)
Definition ctx : SdkContext :=
  {| ctxGasMeter := infiniteMeter;
     ctxBlockHeight := 100;
     ctxGasMultiplier := (2%Z, 1%Z);
     ctxStore := state |}.

(** The same snapshot under a finite meter that is partly used. *)
Definition meteredCtx : SdkContext := WithGasMeter ctx partlyUsedMeter.

(** A later height, past the activation of the second CW20 version. *)
Definition laterCtx : SdkContext :=
  {| ctxGasMeter := infiniteMeter;
     ctxBlockHeight := 2000;
     ctxGasMultiplier := (2%Z, 1%Z);
     ctxStore := state |}.

Definition keeper : Keeper :=
  tableKeeper {| GasLimit := 10000000 |} accountKeeper echoEVM.

Definition querier : Querier := NewQuerier keeper.



(** An engine that returns the caller it was given as its output. *)
Definition callerEVM (ctx : SdkContext) (from : AccAddress) (to : Address) (data : list byte)
    : Result (list byte) * GasMeter :=
  (Ok from, ctxGasMeter ctx).

Definition callerQuerier : Querier :=
  NewQuerier (tableKeeper {| GasLimit := 10000000 |} accountKeeper callerEVM).



End Scenario.

(** * Properties *)

(** ** The codecs on known vectors *)

Example Keccak256_empty :
  hexEncode (Keccak256 []) =
  "c5d2460186f7233c927e7db2dcc703c0e500b653ca82273b7bfad8045d85a470".
Proof. vm_compute. reflexivity. Qed.

Example Hex_checksum_vectors :
  Hex (HexToAddress "0x5aaeb6053f3e94c9b9a09f33669435e7ef1beaed")
    = "0x5aAeb6053F3E94C9b9A09f33669435E7Ef1BeAed" /\
  Hex (HexToAddress "fb6916095ca1df60bb79ce92ce3ea74c37c5d359")
    = "0xfB6916095ca1df60bB79Ce92cE3Ea74c37c5d359" /\
  Hex (HexToAddress "0XDBF03B407C01E7CD3CBEA99509D93F8DDDC8C6FB")
    = "0xdbF03B407c01E7cD3CBea99509d93f8DDDC8C6FB".
Proof. vm_compute. repeat split. Qed.

Example HexToAddress_lenient :
  HexToAddress "not-an-address" = zeroAddress /\
  HexToAddress "1" = repeat x00 19 ++ [x01] /\
  HexToAddress "0x12zz" = repeat x00 19 ++ [x12].
Proof. vm_compute. repeat split. Qed.

Example Bech32_vectors :
  Bech32.Encode "a" [] = "a12uel5l" /\
  Bech32.Encode "abcdef" (map N.of_nat (seq 0 32))
    = "abcdef1qpzry9x8gf2tvdw0s3jn54khce6mua7lmqqqxw" /\
  Bech32.Encode "bc"
    (0%N :: Bech32.regroup 0 0
              (map Byte.to_N (FromHex "751e76e8199196d454941c45d1b3a323f1433bd6")))
    = "bc1qw508d6qejxtdg4y5r3zarvary0c5xw7kv8f3t4".
Proof. vm_compute. repeat split. Qed.

Example AccAddressFromBech32_String :
  Bech32Decoder.AccAddressFromBech32 (AccAddress_String Scenario.account)
    = Ok Scenario.account /\
  Bech32Decoder.decodeAccAddress "sei1notanaddress" = None.
Proof. vm_compute. repeat split. Qed.

(** ** Equality tests *)

Lemma bytes_eqb_eq (a b : list byte) : bytes_eqb a b = true <-> a = b.
Proof.
  revert b. induction a as [|x a IH]; intros [|y b]; simpl; split; intros E;
    try reflexivity; try discriminate.
  - apply andb_prop in E. destruct E as [Exy Eab].
    apply Byte.byte_dec_bl in Exy. apply IH in Eab. now subst.
  - injection E as -> ->. rewrite Byte.byte_dec_lb by reflexivity.
    now apply IH.
Qed.

Lemma standard_eqb_refl (s : PointerType) : (s =? s)%Z = true.
Proof. apply Z.eqb_refl. Qed.

Lemma not_known_standard (standard : PointerType) :
  ~ In standard knownStandards ->
  (standard =? PointerType_NATIVE)%Z = false /\
  (standard =? PointerType_CW20)%Z = false /\
  (standard =? PointerType_CW721)%Z = false /\
  (standard =? PointerType_CW1155)%Z = false /\
  (standard =? PointerType_ERC20)%Z = false /\
  (standard =? PointerType_ERC721)%Z = false /\
  (standard =? PointerType_ERC1155)%Z = false.
Proof.
  intros Hout. repeat split; apply Z.eqb_neq; intros ->; apply Hout; simpl; tauto.
Qed.

(** Case analysis on a known standard. *)
Ltac known_standard H :=
  simpl in H;
  repeat (destruct H as [H | H]; [ subst | ]); [ .. | contradiction ].

(** Case analysis on the triple a getter returns. *)
Ltac destruct_getter :=
  repeat match goal with
         | |- context [match ?g with pair _ _ => _ end] => destruct g
         end.

Ltac key_nonempty H :=
  let E := fresh "E" in
  pose proof (proj2 (String.eqb_neq _ _) H) as E; rewrite ?E.

(** ** Missing keys and unknown standards *)

(** C10: in [Pointer] and in [Pointee] the test for an empty key comes
    before the switch on the standard.  Whatever the standard of the
    request, one of the seven or any other value, an empty pointee fails
    with [ErrMustSpecifyPointee] and an empty pointer with
    [ErrMustSpecifyPointer]; [ErrUnsupported] is not returned. *)
Theorem empty_key_checked_before_standard :
  forall (q : Querier) (ctx : SdkContext) (standard : PointerType),
    Pointer q ctx (QueryPointerRequest.mk standard "") = Err ErrMustSpecifyPointee /\
    Pointee q ctx (QueryPointeeRequest.mk standard "") = Err ErrMustSpecifyPointer /\
    Pointer q ctx (QueryPointerRequest.mk standard "") <> Err ErrUnsupported /\
    Pointee q ctx (QueryPointeeRequest.mk standard "") <> Err ErrUnsupported.
Proof.
  intros q ctx standard.
  assert (HP : Pointer q ctx (QueryPointerRequest.mk standard "") = Err ErrMustSpecifyPointee)
    by reflexivity.
  assert (HQ : Pointee q ctx (QueryPointeeRequest.mk standard "") = Err ErrMustSpecifyPointer)
    by reflexivity.
  rewrite HP, HQ. repeat split; discriminate.
Qed.

(** C7: a standard outside the seven known tags makes [Pointer], [Pointee]
    (with a non-empty key) and [PointerVersion] fail, all three with
    [ErrUnsupported]. *)
Theorem unknown_standard_is_unsupported `{Imports} :
  forall (q : Querier) (ctx : SdkContext) (standard : PointerType)
         (pointee pointer : string),
    ~ In standard knownStandards ->
    pointee <> "" ->
    pointer <> "" ->
    Pointer q ctx (QueryPointerRequest.mk standard pointee) = Err ErrUnsupported /\
    Pointee q ctx (QueryPointeeRequest.mk standard pointer) = Err ErrUnsupported /\
    PointerVersion q ctx (QueryPointerVersionRequest.mk standard) = Err ErrUnsupported.
Proof.
  intros q ctx standard pointee pointer Hout Hpointee Hpointer.
  destruct (not_known_standard standard Hout) as (E1 & E2 & E3 & E4 & E5 & E6 & E7).
  unfold Pointer, Pointee, PointerVersion; simpl.
  key_nonempty Hpointee. key_nonempty Hpointer.
  rewrite E1, E2, E3, E4, E5, E6, E7. repeat split.
Qed.

Lemma unknown_standard_is_unsupported_witness :
  Pointer Scenario.querier Scenario.ctx (QueryPointerRequest.mk 7%Z "usei")
    = Err ErrUnsupported /\
  Pointee Scenario.querier Scenario.ctx (QueryPointeeRequest.mk 7%Z "0x01")
    = Err ErrUnsupported /\
  @PointerVersion Scenario.imports Scenario.querier Scenario.ctx
    (QueryPointerVersionRequest.mk 7%Z) = Err ErrUnsupported.
Proof.
  apply (@unknown_standard_is_unsupported Scenario.imports).
  - simpl. intros [E | [E | [E | [E | [E | [E | [E | []]]]]]]]; discriminate E.
  - discriminate.
  - discriminate.
Defined.



(** ** Static calls *)

(** C2: a static call without a target fails with the error "cannot use
    static call to create contracts", the rejection of an invalid
    argument, whatever the call data.  Nothing has run by then: no call
    into the EVM was made and the gas meter of the context is what it was,
    so the gas used by the request is zero. *)
Theorem static_call_needs_target `{Imports} :
  forall (q : Querier) (ctx : SdkContext) (data : list byte),
    fst (StaticCall q ctx (QueryStaticCallRequest.mk data ""))
      = Err (ErrorsNew "cannot use static call to create contracts") /\
    evmCalls (snd (StaticCall q ctx (QueryStaticCallRequest.mk data ""))) = [] /\
    gasMeterAfter (snd (StaticCall q ctx (QueryStaticCallRequest.mk data "")))
      = ctxGasMeter ctx /\
    gasUsed (ctxGasMeter ctx)
      (gasMeterAfter (snd (StaticCall q ctx (QueryStaticCallRequest.mk data "")))) = 0%Z.
Proof.
  intros q ctx data. unfold StaticCall; simpl.
  repeat split. unfold gasUsed. lia.
Qed.

Lemma StaticCall_with_target `{Imports} (q : Querier) (ctx : SdkContext)
    (req : QueryStaticCallRequest.t) :
  QueryStaticCallRequest.To req <> "" ->
  evmCalls (snd (StaticCall q ctx req))
    = [ {| callCtx := staticCallContext q ctx;
           callFrom := GetModuleAddress (AccountKeeper (q_Keeper q)) ModuleName;
           callTo := HexToAddress (QueryStaticCallRequest.To req);
           callData := QueryStaticCallRequest.Data req |} ] /\
  gasMeterAfter (snd (StaticCall q ctx req))
    = (if (Limit (ctxGasMeter ctx) =? 0)%Z then ctxGasMeter ctx
       else snd (StaticCallEVM (q_Keeper q) (staticCallContext q ctx)
                   (GetModuleAddress (AccountKeeper (q_Keeper q)) ModuleName)
                   (HexToAddress (QueryStaticCallRequest.To req))
                   (QueryStaticCallRequest.Data req))).
Proof.
  intros Hto. unfold StaticCall. key_nonempty Hto.
  destruct (StaticCallEVM _ _ _ _ _) as [[res | err] meter]; simpl; split; reflexivity.
Qed.

(** A static call with a target, in full: the call made into the EVM, the
    result made of its result, and the meter the context is left with. *)
Lemma StaticCall_runs_one_call `{Imports} (q : Querier) (ctx : SdkContext)
    (req : QueryStaticCallRequest.t) :
  QueryStaticCallRequest.To req <> "" ->
  StaticCall q ctx req
    = (staticCallResponse
         (fst (StaticCallEVM (q_Keeper q) (staticCallContext q ctx)
                 (GetModuleAddress (AccountKeeper (q_Keeper q)) ModuleName)
                 (HexToAddress (QueryStaticCallRequest.To req))
                 (QueryStaticCallRequest.Data req))),
       {| gasMeterAfter :=
            if (Limit (ctxGasMeter ctx) =? 0)%Z then ctxGasMeter ctx
            else snd (StaticCallEVM (q_Keeper q) (staticCallContext q ctx)
                        (GetModuleAddress (AccountKeeper (q_Keeper q)) ModuleName)
                        (HexToAddress (QueryStaticCallRequest.To req))
                        (QueryStaticCallRequest.Data req));
          evmCalls :=
            [ {| callCtx := staticCallContext q ctx;
                 callFrom := GetModuleAddress (AccountKeeper (q_Keeper q)) ModuleName;
                 callTo := HexToAddress (QueryStaticCallRequest.To req);
                 callData := QueryStaticCallRequest.Data req |} ] |}).
Proof.
  intros Hto. unfold StaticCall. key_nonempty Hto.
  destruct (StaticCallEVM _ _ _ _ _) as [[res | err] meter]; reflexivity.
Qed.

(** C5: the caller [StaticCall] hands to [StaticCallEVM] is the address of
    this module, [GetModuleAddress(types.ModuleName)], whatever the request.
    The result of a static call with a target is the result of
    [StaticCallEVM] run with that address as caller; so an engine that
    returns its caller returns the module address for every request, and the
    record of the call names the same address.  Two requests, whatever their
    targets, call data and contexts, execute as the same address. *)
Theorem static_call_caller_is_module_account `{Imports} :
  forall (q : Querier),
    (forall ctx req,
       QueryStaticCallRequest.To req <> "" ->
       fst (StaticCall q ctx req)
         = staticCallResponse
             (fst (StaticCallEVM (q_Keeper q) (staticCallContext q ctx)
                     (GetModuleAddress (AccountKeeper (q_Keeper q)) ModuleName)
                     (HexToAddress (QueryStaticCallRequest.To req))
                     (QueryStaticCallRequest.Data req)))) /\
    ((forall ctx from to data,
        fst (StaticCallEVM (q_Keeper q) ctx from to data) = Ok from) ->
     forall ctx req,
       QueryStaticCallRequest.To req <> "" ->
       fst (StaticCall q ctx req)
         = Ok (QueryStaticCallResponse.mk
                 (GetModuleAddress (AccountKeeper (q_Keeper q)) ModuleName))) /\
    (forall ctx req,
       map callFrom (evmCalls (snd (StaticCall q ctx req)))
         = if String.eqb (QueryStaticCallRequest.To req) "" then []
           else [ GetModuleAddress (AccountKeeper (q_Keeper q)) ModuleName ]) /\
    (forall ctx1 req1 ctx2 req2 c1 c2,
       In c1 (evmCalls (snd (StaticCall q ctx1 req1))) ->
       In c2 (evmCalls (snd (StaticCall q ctx2 req2))) ->
       callFrom c1 = callFrom c2).
Proof.
  intros q.
  assert (Hrun : forall ctx req,
             QueryStaticCallRequest.To req <> "" ->
             fst (StaticCall q ctx req)
               = staticCallResponse
                   (fst (StaticCallEVM (q_Keeper q) (staticCallContext q ctx)
                           (GetModuleAddress (AccountKeeper (q_Keeper q)) ModuleName)
                           (HexToAddress (QueryStaticCallRequest.To req))
                           (QueryStaticCallRequest.Data req)))).
  { intros ctx req Hto. now rewrite (StaticCall_runs_one_call q ctx req Hto). }
  assert (Hfrom : forall ctx req,
             map callFrom (evmCalls (snd (StaticCall q ctx req)))
               = if String.eqb (QueryStaticCallRequest.To req) "" then []
                 else [ GetModuleAddress (AccountKeeper (q_Keeper q)) ModuleName ]).
  { intros ctx req.
    destruct (String.eqb_spec (QueryStaticCallRequest.To req) "") as [E | Hto].
    - unfold StaticCall. rewrite E. reflexivity.
    - now rewrite (StaticCall_runs_one_call q ctx req Hto). }
  split; [exact Hrun | split; [| split; [exact Hfrom |]]].
  - intros Hengine ctx req Hto. rewrite (Hrun ctx req Hto), Hengine. reflexivity.
  - intros ctx1 req1 ctx2 req2 c1 c2 H1 H2.
    apply (in_map callFrom) in H1. apply (in_map callFrom) in H2.
    rewrite Hfrom in H1, H2.
    destruct (String.eqb _ _) in H1; [destruct H1 |].
    destruct (String.eqb _ _) in H2; [destruct H2 |].
    destruct H1 as [<- | []]. destruct H2 as [<- | []]. reflexivity.
Qed.

Lemma static_call_caller_is_module_account_witness :
  fst (@StaticCall Scenario.imports Scenario.callerQuerier Scenario.meteredCtx
         (QueryStaticCallRequest.mk [x01; x02]
            "0x5aaeb6053f3e94c9b9a09f33669435e7ef1beaed"))
    = Ok (QueryStaticCallResponse.mk Scenario.moduleAddress) /\
  fst (@StaticCall Scenario.imports Scenario.callerQuerier Scenario.ctx
         (QueryStaticCallRequest.mk [] "0xfb6916095ca1df60bb79ce92ce3ea74c37c5d359"))
    = Ok (QueryStaticCallResponse.mk Scenario.moduleAddress).
Proof.
  destruct (@static_call_caller_is_module_account Scenario.imports Scenario.callerQuerier)
    as (_ & Hcaller & _ & _).
  split.
  - apply (Hcaller (fun ctx from to data => eq_refl) Scenario.meteredCtx
             (QueryStaticCallRequest.mk [x01; x02]
                "0x5aaeb6053f3e94c9b9a09f33669435e7ef1beaed")).
    discriminate.
  - apply (Hcaller (fun ctx from to data => eq_refl) Scenario.ctx
             (QueryStaticCallRequest.mk [] "0xfb6916095ca1df60bb79ce92ce3ea74c37c5d359")).
    discriminate.
Defined.




(** ** Versions *)

Lemma find_existsb_false {A : Type} (f : A -> bool) (l : list A) :
  existsb f l = false -> find f l = None.
Proof.
  induction l as [|x l IH]; simpl; intros E; [reflexivity |].
  apply orb_false_elim in E. destruct E as [-> E]. now apply IH.
Qed.

(** C8: for each of the seven standards and every context, [PointerVersion]
    succeeds.  For NATIVE, CW20, CW721 and CW1155 the response carries no
    code identifier (the field keeps its zero value); for ERC20, ERC721 and
    ERC1155 it carries what [GetStoredPointerCodeID] returns, which over the
    stored code identifiers is 0 when none was ever stored for the
    standard. *)
Theorem pointer_version_never_fails `{Imports} :
  forall (standard : PointerType),
    In standard knownStandards ->
    forall (q : Querier) (ctx : SdkContext),
    exists resp : QueryPointerVersionResponse.t,
      PointerVersion q ctx (QueryPointerVersionRequest.mk standard) = Ok resp /\
      (isCodeTemplate standard = false -> QueryPointerVersionResponse.CwCodeId resp = 0%Z) /\
      (isCodeTemplate standard = true ->
         QueryPointerVersionResponse.CwCodeId resp
           = GetStoredPointerCodeID (q_Keeper q) ctx standard) /\
      (forall cfg ak evm,
         q_Keeper q = tableKeeper cfg ak evm ->
         codeStored (ctxStore ctx) standard = false ->
         QueryPointerVersionResponse.CwCodeId resp = 0%Z).
Proof.
  intros standard Hknown q ctx.
  known_standard Hknown; eexists; (split; [reflexivity |]); simpl;
    (split; [intros E; first [reflexivity | discriminate E] |]);
    (split; [intros E; first [reflexivity | discriminate E] |]);
    intros cfg ak evm Hk Hstored; try reflexivity;
    rewrite Hk; simpl; unfold codeStored in Hstored;
    rewrite (find_existsb_false _ _ Hstored); reflexivity.
Qed.

Lemma pointer_version_never_fails_witness :
  exists resp : QueryPointerVersionResponse.t,
    @PointerVersion Scenario.imports Scenario.querier Scenario.ctx
      (QueryPointerVersionRequest.mk PointerType_ERC721) = Ok resp /\
    QueryPointerVersionResponse.CwCodeId resp = 0%Z.
Proof.
  destruct (@pointer_version_never_fails Scenario.imports PointerType_ERC721)
    with (q := Scenario.querier) (ctx := Scenario.ctx) as (resp & Hresp & _ & _ & Hnone).
  - simpl. tauto.
  - exists resp. split; [exact Hresp |].
    apply (Hnone _ _ _ eq_refl). reflexivity.
Defined.

(** C9: for NATIVE, CW721, CW1155, ERC20, ERC721 and ERC1155 the version
    [PointerVersion] reports is the constant [CurrentVersion] of the artifact
    of that standard, the same for every querier and context.  For CW20 it
    is [cw20.CurrentVersion(ctx)], computed from the context of the query,
    so that two contexts for which that function differs get different
    answers. *)
Theorem pointer_version_fixed_or_live `{Imports} :
  (forall (q : Querier) (ctx : SdkContext),
     PointerVersion q ctx (QueryPointerVersionRequest.mk PointerType_NATIVE)
       = Ok (QueryPointerVersionResponse.mk (uint32 native_CurrentVersion) 0) /\
     PointerVersion q ctx (QueryPointerVersionRequest.mk PointerType_CW721)
       = Ok (QueryPointerVersionResponse.mk (uint32 cw721_CurrentVersion) 0) /\
     PointerVersion q ctx (QueryPointerVersionRequest.mk PointerType_CW1155)
       = Ok (QueryPointerVersionResponse.mk (uint32 cw1155_CurrentVersion) 0) /\
     PointerVersion q ctx (QueryPointerVersionRequest.mk PointerType_ERC20)
       = Ok (QueryPointerVersionResponse.mk (uint32 erc20_CurrentVersion)
               (GetStoredPointerCodeID (q_Keeper q) ctx PointerType_ERC20)) /\
     PointerVersion q ctx (QueryPointerVersionRequest.mk PointerType_ERC721)
       = Ok (QueryPointerVersionResponse.mk (uint32 erc721_CurrentVersion)
               (GetStoredPointerCodeID (q_Keeper q) ctx PointerType_ERC721)) /\
     PointerVersion q ctx (QueryPointerVersionRequest.mk PointerType_ERC1155)
       = Ok (QueryPointerVersionResponse.mk (uint32 erc1155_CurrentVersion)
               (GetStoredPointerCodeID (q_Keeper q) ctx PointerType_ERC1155))) /\
  (forall standard, In standard fixedVersionStandards ->
     exists v : Z, forall (q : Querier) (ctx : SdkContext),
       reportedVersion (PointerVersion q ctx (QueryPointerVersionRequest.mk standard))
         = Some v) /\
  (forall (q : Querier) (ctx : SdkContext),
     PointerVersion q ctx (QueryPointerVersionRequest.mk PointerType_CW20)
       = Ok (QueryPointerVersionResponse.mk (uint32 (cw20_CurrentVersion ctx)) 0)) /\
  (forall (q : Querier) (ctx1 ctx2 : SdkContext),
     uint32 (cw20_CurrentVersion ctx1) <> uint32 (cw20_CurrentVersion ctx2) ->
     reportedVersion (PointerVersion q ctx1 (QueryPointerVersionRequest.mk PointerType_CW20))
       <> reportedVersion
            (PointerVersion q ctx2 (QueryPointerVersionRequest.mk PointerType_CW20))).
Proof.
  split; [| split; [| split]].
  - intros q ctx. repeat split.
  - intros standard Hfixed. simpl in Hfixed.
    repeat (destruct Hfixed as [Hfixed | Hfixed];
            [subst; eexists; intros q ctx; simpl; reflexivity |]).
    contradiction.
  - intros q ctx. reflexivity.
  - intros q ctx1 ctx2 Hdiff E. simpl in E. injection E as E. contradiction.
Qed.

Lemma pointer_version_fixed_or_live_witness :
  @PointerVersion Scenario.imports Scenario.querier Scenario.ctx
    (QueryPointerVersionRequest.mk PointerType_ERC721)
    = Ok (QueryPointerVersionResponse.mk 6 0) /\
  @PointerVersion Scenario.imports Scenario.querier Scenario.ctx
    (QueryPointerVersionRequest.mk PointerType_ERC20)
    = Ok (QueryPointerVersionResponse.mk 1 7) /\
  @PointerVersion Scenario.imports Scenario.querier Scenario.ctx
    (QueryPointerVersionRequest.mk PointerType_CW20)
    = Ok (QueryPointerVersionResponse.mk 1 0) /\
  @PointerVersion Scenario.imports Scenario.querier Scenario.laterCtx
    (QueryPointerVersionRequest.mk PointerType_CW20)
    = Ok (QueryPointerVersionResponse.mk 2 0) /\
  reportedVersion (@PointerVersion Scenario.imports Scenario.querier Scenario.ctx
                     (QueryPointerVersionRequest.mk PointerType_CW20))
    <> reportedVersion (@PointerVersion Scenario.imports Scenario.querier Scenario.laterCtx
                          (QueryPointerVersionRequest.mk PointerType_CW20)).
Proof.
  destruct (@pointer_version_fixed_or_live Scenario.imports) as (Hfixed & _ & Hlive & Hdiff).
  destruct (Hfixed Scenario.querier Scenario.ctx) as (_ & _ & _ & Herc20 & Herc721 & _).
  split; [exact Herc721 | split; [exact Herc20 | split; [| split]]].
  - exact (Hlive Scenario.querier Scenario.ctx).
  - exact (Hlive Scenario.querier Scenario.laterCtx).
  - apply Hdiff. vm_compute. discriminate.
Defined.

(** ** Address lookups *)

(** C4, as the code has it: both lookups fail with [ErrInvalidRequest] on an
    empty address.  [EVMAddressBySeiAddress] fails on a non-empty address
    that the bech32 decoder rejects, with the error of the decoder.
    [SeiAddressByEVMAddress] rejects no non-empty string: whatever the
    string, it looks up the address [HexToAddress] returns for it.  An
    address that is accepted is answered with the address associated with
    it, or with [Associated = false] and no error when there is none. *)
Theorem address_lookup_outcomes `{Imports} :
  forall (q : Querier) (ctx : SdkContext),
    SeiAddressByEVMAddress q ctx (QuerySeiAddressByEVMAddressRequest.mk "")
      = Err ErrInvalidRequest /\
    EVMAddressBySeiAddress q ctx (QueryEVMAddressBySeiAddressRequest.mk "")
      = Err ErrInvalidRequest /\
    (forall s err, s <> "" ->
       AccAddressFromBech32 s = Err err ->
       EVMAddressBySeiAddress q ctx (QueryEVMAddressBySeiAddressRequest.mk s) = Err err) /\
    (forall s, s <> "" ->
       SeiAddressByEVMAddress q ctx (QuerySeiAddressByEVMAddressRequest.mk s)
         = Ok (if snd (GetSeiAddress (q_Keeper q) ctx (HexToAddress s))
               then QuerySeiAddressByEVMAddressResponse.mk
                      (AccAddress_String
                         (fst (GetSeiAddress (q_Keeper q) ctx (HexToAddress s))))
                      true
               else QuerySeiAddressByEVMAddressResponse.mk "" false)) /\
    (forall s, s <> "" ->
       snd (GetSeiAddress (q_Keeper q) ctx (HexToAddress s)) = false ->
       SeiAddressByEVMAddress q ctx (QuerySeiAddressByEVMAddressRequest.mk s)
         = Ok (QuerySeiAddressByEVMAddressResponse.mk "" false)) /\
    (forall s seiAddr, s <> "" ->
       AccAddressFromBech32 s = Ok seiAddr ->
       EVMAddressBySeiAddress q ctx (QueryEVMAddressBySeiAddressRequest.mk s)
         = Ok (if snd (GetEVMAddress (q_Keeper q) ctx seiAddr)
               then QueryEVMAddressBySeiAddressResponse.mk
                      (Hex (fst (GetEVMAddress (q_Keeper q) ctx seiAddr))) true
               else QueryEVMAddressBySeiAddressResponse.mk "" false)) /\
    (forall s seiAddr, s <> "" ->
       AccAddressFromBech32 s = Ok seiAddr ->
       snd (GetEVMAddress (q_Keeper q) ctx seiAddr) = false ->
       EVMAddressBySeiAddress q ctx (QueryEVMAddressBySeiAddressRequest.mk s)
         = Ok (QueryEVMAddressBySeiAddressResponse.mk "" false)).
Proof.
  intros q ctx.
  assert (Hsei : forall s, s <> "" ->
            SeiAddressByEVMAddress q ctx (QuerySeiAddressByEVMAddressRequest.mk s)
              = Ok (if snd (GetSeiAddress (q_Keeper q) ctx (HexToAddress s))
                    then QuerySeiAddressByEVMAddressResponse.mk
                           (AccAddress_String
                              (fst (GetSeiAddress (q_Keeper q) ctx (HexToAddress s))))
                           true
                    else QuerySeiAddressByEVMAddressResponse.mk "" false)).
  { intros s Hs. unfold SeiAddressByEVMAddress; simpl. key_nonempty Hs.
    destruct (GetSeiAddress _ _ _) as [addr [|]]; reflexivity. }
  assert (Hevm : forall s seiAddr, s <> "" ->
            AccAddressFromBech32 s = Ok seiAddr ->
            EVMAddressBySeiAddress q ctx (QueryEVMAddressBySeiAddressRequest.mk s)
              = Ok (if snd (GetEVMAddress (q_Keeper q) ctx seiAddr)
                    then QueryEVMAddressBySeiAddressResponse.mk
                           (Hex (fst (GetEVMAddress (q_Keeper q) ctx seiAddr))) true
                    else QueryEVMAddressBySeiAddressResponse.mk "" false)).
  { intros s seiAddr Hs Hdec. unfold EVMAddressBySeiAddress; simpl.
    key_nonempty Hs. rewrite Hdec.
    destruct (GetEVMAddress _ _ _) as [addr [|]]; reflexivity. }
  split; [reflexivity | split; [reflexivity |]].
  split; [| split; [exact Hsei | split; [| split; [exact Hevm |]]]].
  - intros s err Hs Hdec. unfold EVMAddressBySeiAddress; simpl.
    key_nonempty Hs. rewrite Hdec. reflexivity.
  - intros s Hs Hnone. rewrite (Hsei s Hs), Hnone. reflexivity.
  - intros s seiAddr Hs Hdec Hnone. rewrite (Hevm s seiAddr Hs Hdec), Hnone. reflexivity.
Qed.

Lemma address_lookup_outcomes_witness :
  (exists err,
     Bech32Decoder.AccAddressFromBech32 "sei1notanaddress" = Err err /\
     @EVMAddressBySeiAddress Scenario.imports Scenario.querier Scenario.ctx
       (QueryEVMAddressBySeiAddressRequest.mk "sei1notanaddress") = Err err) /\
  SeiAddressByEVMAddress Scenario.querier Scenario.ctx
    (QuerySeiAddressByEVMAddressRequest.mk "0x5aaeb6053f3e94c9b9a09f33669435e7ef1beaed")
    = Ok (QuerySeiAddressByEVMAddressResponse.mk "" false) /\
  @EVMAddressBySeiAddress Scenario.imports Scenario.querier Scenario.ctx
    (QueryEVMAddressBySeiAddressRequest.mk "sei1m0crksruq8nu60974x2snkfl3hwu33hmqxczgv")
    = Ok (QueryEVMAddressBySeiAddressResponse.mk "" false).
Proof.
  destruct (@address_lookup_outcomes Scenario.imports Scenario.querier Scenario.ctx)
    as (_ & _ & Hreject & _ & Hevm & _ & Hsei).
  split; [| split].
  - exists ErrAccAddressFromBech32. split; [vm_compute; reflexivity |].
    apply Hreject; [discriminate | vm_compute; reflexivity].
  - apply Hevm; [discriminate | vm_compute; reflexivity].
  - apply (Hsei _ Scenario.contract); [discriminate | vm_compute; reflexivity ..].
Defined.

(** C4 as the specification states it fails for the lookup by EVM address:
    "not-an-address" is not empty and is no hexadecimal address, yet the
    lookup does not fail; it answers that nothing is associated. *)
Lemma malformed_evm_address_is_looked_up :
  IsHexAddress "not-an-address" = false /\
  String.eqb "not-an-address" "" = false /\
  SeiAddressByEVMAddress Scenario.querier Scenario.ctx
    (QuerySeiAddressByEVMAddressRequest.mk "not-an-address")
    = Ok (QuerySeiAddressByEVMAddressResponse.mk "" false).
Proof. vm_compute. repeat split. Qed.

(** ** The hexadecimal form of an address parses back to the address *)

Lemma substring_all (s : string) : String.substring 0 (String.length s) s = s.
Proof. induction s as [|c s IH]; simpl; [reflexivity | now rewrite IH]. Qed.

Lemma applyChecksum_nil (buf : string) : applyChecksum buf [] = buf.
Proof. destruct buf; reflexivity. Qed.

Lemma length_applyChecksum (buf : string) (hash : list N) :
  String.length (applyChecksum buf hash) = String.length buf.
Proof.
  revert hash. induction buf as [|c buf IH]; intros [|h hash]; simpl;
    try reflexivity. now rewrite IH.
Qed.

Lemma length_hexEncode (bs : list byte) : String.length (hexEncode bs) = 2 * length bs.
Proof. induction bs as [|b bs IH]; simpl; [reflexivity | rewrite IH; lia]. Qed.

(** A digit of [hextable] reads back as its value, in either case. *)
Lemma reverseHexTable_hexDigit (n : N) (upper : bool) :
  (n < 16)%N ->
  reverseHexTable
    (if (57 <? N_of_ascii (hexDigit n))%N && upper
     then ascii_of_N (N_of_ascii (hexDigit n) - 32) else hexDigit n) = Some n.
Proof.
  intros Hn.
  assert (Hcases : In n (map N.of_nat (seq 0 16))).
  { replace n with (N.of_nat (N.to_nat n)) by apply N2Nat.id.
    apply in_map, in_seq. lia. }
  simpl in Hcases.
  repeat (destruct Hcases as [<- | Hcases]; [destruct upper; reflexivity |]).
  contradiction.
Qed.

Lemma byteOfN_nibbles (b : byte) :
  byteOfN (16 * (Byte.to_N b / 16) + Byte.to_N b mod 16) = b.
Proof.
  rewrite <- N.div_mod by discriminate.
  unfold byteOfN. now rewrite Byte.of_to_N.
Qed.

Lemma nibbles_bounded (b : byte) :
  (Byte.to_N b / 16 < 16)%N /\ (Byte.to_N b mod 16 < 16)%N.
Proof.
  pose proof (Byte.to_N_bounded b) as Hb. split.
  - apply N.Div0.div_lt_upper_bound. lia.
  - apply N.mod_lt. discriminate.
Qed.

Lemma Hex2Bytes_pair (c1 c2 : ascii) (rest : string) (b : byte) :
  reverseHexTable c1 = Some (Byte.to_N b / 16)%N ->
  reverseHexTable c2 = Some (Byte.to_N b mod 16)%N ->
  Hex2Bytes (String c1 (String c2 rest)) = b :: Hex2Bytes rest.
Proof.
  intros E1 E2. cbn [Hex2Bytes]. rewrite E1, E2. now rewrite byteOfN_nibbles.
Qed.

Lemma Hex2Bytes_checksummed (bs : list byte) (hash : list N) :
  Hex2Bytes (applyChecksum (hexEncode bs) hash) = bs.
Proof.
  revert hash. induction bs as [|b bs IH]; intros hash.
  - destruct hash; reflexivity.
  - destruct (nibbles_bounded b) as [Hhi Hlo].
    pose proof (reverseHexTable_hexDigit _ false Hhi) as Hhi0.
    pose proof (reverseHexTable_hexDigit _ false Hlo) as Hlo0.
    rewrite andb_false_r in Hhi0, Hlo0.
    cbn [hexEncode]. destruct hash as [|h1 [|h2 hash]]; cbn [applyChecksum].
    + rewrite (Hex2Bytes_pair _ _ _ b Hhi0 Hlo0).
      f_equal. rewrite <- (applyChecksum_nil (hexEncode bs)). apply IH.
    + rewrite (Hex2Bytes_pair _ _ _ b (reverseHexTable_hexDigit _ _ Hhi) Hlo0).
      f_equal. rewrite <- (applyChecksum_nil (hexEncode bs)). apply IH.
    + rewrite (Hex2Bytes_pair _ _ _ b (reverseHexTable_hexDigit _ _ Hhi)
                 (reverseHexTable_hexDigit _ _ Hlo)).
      f_equal. apply IH.
Qed.

Lemma BytesToAddress_id (a : Address) :
  length a = AddressLength -> BytesToAddress a = a.
Proof.
  intros Hlen. unfold BytesToAddress. rewrite Hlen.
  rewrite Nat.ltb_irrefl, Hlen, Nat.sub_diag. reflexivity.
Qed.

Lemma HexToAddress_Hex (a : Address) :
  length a = AddressLength -> HexToAddress (Hex a) = a.
Proof.
  intros Hlen. unfold HexToAddress, Hex, checksumHex, FromHex.
  set (body := applyChecksum _ _).
  assert (Hbody : String.length body = 2 * length a)
    by (unfold body; now rewrite length_applyChecksum, length_hexEncode).
  replace (has0xPrefix (String "0" (String "x" body))) with true by reflexivity.
  cbn [String.length String.substring Nat.sub].
  rewrite Nat.sub_0_r, substring_all, Hbody.
  replace (Nat.odd (2 * length a)) with false
    by (symmetry; rewrite <- Nat.negb_even, Nat.even_mul; reflexivity).
  unfold body. rewrite Hex2Bytes_checksummed. now apply BytesToAddress_id.
Qed.

Lemma Hex_nonempty (a : Address) : String.eqb (Hex a) "" = false.
Proof. reflexivity. Qed.

Lemma AccAddress_String_nonempty (aa : AccAddress) :
  aa <> [] -> AccAddress_String aa <> "".
Proof.
  intros Hne. destruct aa as [|b aa]; [contradiction |].
  unfold AccAddress_String, Bech32.ConvertAndEncode, Bech32.Encode, Bech32PrefixAccAddr.
  cbn [String.append]. discriminate.
Qed.

(** ** Lookups in a table without duplicate keys *)
Section Lookup.
Variables (R X : Type) (eqb : X -> X -> bool) (key : R -> X).
Hypothesis eqb_sound : forall a b, eqb a b = true -> a = b.
Hypothesis eqb_refl : forall a, eqb a a = true.

Lemma lookupBy_Some (x : X) (table : list R) (r : R) :
  lookupBy eqb key x table = Some r -> In r table /\ key r = x.
Proof.
  unfold lookupBy. intros Hfind. apply find_some in Hfind.
  destruct Hfind as [Hin Heq]. split; [exact Hin | now apply eqb_sound].
Qed.

Lemma lookupBy_unique (table : list R) (r : R) :
  NoDup (map key table) -> In r table -> lookupBy eqb key (key r) table = Some r.
Proof.
  unfold lookupBy. induction table as [|r0 table IH]; simpl; intros Hnodup Hin.
  - contradiction.
  - inversion Hnodup as [|k ks Hfresh Hrest]; subst.
    destruct Hin as [-> | Hin].
    + now rewrite eqb_refl.
    + destruct (eqb (key r0) (key r)) eqn:E.
      * apply eqb_sound in E. exfalso. apply Hfresh. rewrite E. now apply in_map.
      * now apply IH.
Qed.

End Lookup.

Lemma found_true {K P V : Type} (zero : V) (side : PointerRecord K P -> V)
    (o : option (PointerRecord K P)) (x : V) (v : Z) :
  found zero side o = (x, v, true) -> exists r, o = Some r /\ side r = x /\ version r = v.
Proof.
  destruct o as [r|]; simpl; intros E; [| discriminate].
  injection E as <- <-. now exists r.
Qed.

Lemma String_eqb_sound (a b : string) : String.eqb a b = true -> a = b.
Proof. apply String.eqb_eq. Qed.

Lemma bytes_eqb_sound (a b : list byte) : bytes_eqb a b = true -> a = b.
Proof. apply bytes_eqb_eq. Qed.

Lemma bytes_eqb_refl (a : list byte) : bytes_eqb a a = true.
Proof. now apply bytes_eqb_eq. Qed.

(** ** The tables of a well-formed state are inverse registries *)

(** Rewrites the lookup of the key of a record [r] of the table into [r]. *)
Ltac lookup_record r :=
  match goal with
  | |- context [lookupBy ?e ?k ?x ?t] =>
      let E := fresh "E" in
      assert (E : lookupBy e k x t = Some r)
        by (apply (lookupBy_unique _ _ e k);
            first [ assumption | apply String_eqb_sound | apply String.eqb_refl
                  | apply bytes_eqb_sound | apply bytes_eqb_refl ]);
      rewrite E
  end.

Lemma hexPointers_inverse (table : list (PointerRecord string Address)) :
  wfHexPointers table ->
  InverseCW
    (fun key => found zeroAddress pointerAddress (lookupBy String.eqb pointeeKey key table))
    (fun addr => found "" pointeeKey (lookupBy bytes_eqb pointerAddress addr table)).
Proof.
  intros [Hkeys Hptrs Hnonempty Hlen]. rewrite Forall_forall in Hnonempty, Hlen.
  split.
  - intros key a v Hfwd.
    apply found_true in Hfwd. destruct Hfwd as (r & Hr & <- & <-).
    apply (lookupBy_Some _ _ _ _ String_eqb_sound) in Hr. destruct Hr as [Hin <-].
    split; [now apply Hlen |]. exists (version r). cbv beta.
    now lookup_record r.
  - intros a key v Hbwd.
    apply found_true in Hbwd. destruct Hbwd as (r & Hr & <- & <-).
    apply (lookupBy_Some _ _ _ _ bytes_eqb_sound) in Hr. destruct Hr as [Hin <-].
    split; [now apply Hnonempty |]. exists (version r). cbv beta.
    now lookup_record r.
Qed.

(** A getter that takes the pointer as a hexadecimal string and parses it. *)
Lemma InverseCW_parsed (fwd : string -> Address * Z * bool)
    (bwd : Address -> string * Z * bool) :
  InverseCW fwd bwd -> InverseNative fwd (fun s => bwd (HexToAddress s)).
Proof.
  intros [Hfwd Hbwd]. split.
  - intros key a v E. destruct (Hfwd key a v E) as [Hlen Hback].
    split; [exact Hlen |]. now rewrite HexToAddress_Hex.
  - intros s key v E. exact (Hbwd _ _ _ E).
Qed.

Lemma bech32Pointers_inverse (table : list (PointerRecord Address AccAddress)) :
  wfBech32Pointers table ->
  InverseERC
    (fun addr => found [] pointerAddress (lookupBy bytes_eqb pointeeKey addr table))
    (fun s => found zeroAddress pointeeKey
                (lookupBy String.eqb (fun r => AccAddress_String (pointerAddress r)) s table)).
Proof.
  intros [Hkeys Hptrs Hnonempty Hlen]. rewrite Forall_forall in Hnonempty, Hlen.
  split.
  - intros a p v Hfwd.
    apply found_true in Hfwd. destruct Hfwd as (r & Hr & <- & <-).
    apply (lookupBy_Some _ _ _ _ bytes_eqb_sound) in Hr. destruct Hr as [Hin <-].
    split; [now apply AccAddress_String_nonempty, Hnonempty |]. exists (version r). cbv beta.
    now lookup_record r.
  - intros s a v Hbwd.
    apply found_true in Hbwd. destruct Hbwd as (r & Hr & <- & <-).
    apply (lookupBy_Some _ _ _ _ String_eqb_sound) in Hr. destruct Hr as [Hin <-].
    split; [now apply Hlen |]. exists (pointerAddress r), (version r). cbv beta.
    now lookup_record r.
Qed.

Lemma tableKeeper_RegistryInverse cfg ak evm (ctx : SdkContext) :
  wfChainState (ctxStore ctx) -> RegistryInverse (tableKeeper cfg ak evm) ctx.
Proof.
  intros [Hnative Hcw20 Hcw721 Hcw1155 Herc20 Herc721 Herc1155].
  constructor; simpl.
  - exact (InverseCW_parsed _ _ (hexPointers_inverse _ Hnative)).
  - exact (hexPointers_inverse _ Hcw20).
  - exact (hexPointers_inverse _ Hcw721).
  - exact (hexPointers_inverse _ Hcw1155).
  - exact (bech32Pointers_inverse _ Herc20).
  - exact (bech32Pointers_inverse _ Herc721).
  - exact (bech32Pointers_inverse _ Herc1155).
Qed.

Lemma Scenario_state_wf : wfChainState Scenario.state.
Proof.
  assert (Hnone : wfHexPointers []) by (constructor; simpl; constructor).
  assert (Hnone' : wfBech32Pointers []) by (constructor; simpl; constructor).
  assert (Hone : forall A (x : A), NoDup [x])
    by (intros A x; constructor; [intros [] | constructor]).
  constructor; simpl; try assumption; constructor; simpl;
    try apply Hone; repeat constructor; discriminate.
Qed.

(** ** Round trips through the registries *)

(** The two conjuncts of the inverse property of the getters a standard
    uses, picked by the shape of the goal. *)
Ltac use_inverse Hinv :=
  destruct Hinv as [Hnative Hcw20 Hcw721 Hcw1155 Herc20 Herc721 Herc1155];
  destruct Hnative as [Hnative_fwd Hnative_bwd];
  destruct Hcw20 as [Hcw20_fwd Hcw20_bwd];
  destruct Hcw721 as [Hcw721_fwd Hcw721_bwd];
  destruct Hcw1155 as [Hcw1155_fwd Hcw1155_bwd];
  destruct Herc20 as [Herc20_fwd Herc20_bwd];
  destruct Herc721 as [Herc721_fwd Herc721_bwd];
  destruct Herc1155 as [Herc1155_fwd Herc1155_bwd].

Lemma canonical_of_Hex (standard : PointerType) (a : Address) :
  length a = AddressLength ->
  canonicalPointee standard (Hex a) = Hex a /\ canonicalPointer standard (Hex a) = Hex a.
Proof.
  intros Hlen. unfold canonicalPointee, canonicalPointer.
  rewrite (HexToAddress_Hex a Hlen). now destruct (isCodeTemplate standard).
Qed.

(** The answer of a handler that succeeded and found a record: the getter
    it asked returned [true]. *)
Ltac found_record HP G :=
  match type of HP with
  | context [match ?g with pair _ _ => _ end] =>
      let p := fresh "p" in
      let v := fresh "v" in
      let e := fresh "e" in
      destruct g as [[p v] e] eqn:G;
      destruct e; simpl in HP; injection HP as <-; [| discriminate]
  end.

(** Asks the other handler with the key the first one returned. *)
Ltac ask_back Hlen Hback :=
  simpl;
  rewrite ?(HexToAddress_Hex _ Hlen);
  rewrite Hback; simpl;
  eexists; split; [reflexivity | split; [reflexivity |]].

(** C1, as the code has it: for each of the seven standards, over a
    registry whose reverse getters are the inverses of its forward getters,
    asking [Pointee] for the pointer that [Pointer] found for a pointee key
    finds a record, and its pointee is the canonical form of the key: the
    key itself for NATIVE, CW20, CW721 and CW1155, and for ERC20, ERC721 and
    ERC1155 the checksummed hexadecimal form of the address the key parses
    to.  The other way round, asking [Pointer] for the pointee that
    [Pointee] found for a pointer address gives back the canonical form of
    that address: the address itself for ERC20, ERC721 and ERC1155, its
    checksummed hexadecimal form for the four others.  A key written in
    the checksummed form is its own canonical form. *)
Theorem pointer_round_trip_canonical :
  forall (q : Querier) (ctx : SdkContext) (standard : PointerType),
    RegistryInverse (q_Keeper q) ctx ->
    In standard knownStandards ->
    (forall pointee r,
       Pointer q ctx (QueryPointerRequest.mk standard pointee) = Ok r ->
       QueryPointerResponse.Exists r = true ->
       exists r',
         Pointee q ctx (QueryPointeeRequest.mk standard (QueryPointerResponse.Pointer r))
           = Ok r' /\
         QueryPointeeResponse.Exists r' = true /\
         QueryPointeeResponse.Pointee r' = canonicalPointee standard pointee) /\
    (forall pointer r,
       Pointee q ctx (QueryPointeeRequest.mk standard pointer) = Ok r ->
       QueryPointeeResponse.Exists r = true ->
       exists r',
         Pointer q ctx (QueryPointerRequest.mk standard (QueryPointeeResponse.Pointee r))
           = Ok r' /\
         QueryPointerResponse.Exists r' = true /\
         QueryPointerResponse.Pointer r' = canonicalPointer standard pointer) /\
    (forall a : Address,
       length a = AddressLength ->
       canonicalPointee standard (Hex a) = Hex a /\
       canonicalPointer standard (Hex a) = Hex a).
Proof.
  intros q ctx standard Hinv Hknown.
  split; [| split; [| intros a; apply canonical_of_Hex]].
  - (* Pointer, then Pointee *)
    intros pointee r HP Hexists.
    destruct (String.eqb_spec pointee "") as [-> | Hne]; [discriminate HP |].
    use_inverse Hinv.
    unfold Pointer in HP; simpl in HP. key_nonempty Hne. rewrite E in HP.
    known_standard Hknown; simpl in HP; found_record HP G; clear Hexists;
      unfold Pointee.
    + destruct (Hnative_fwd _ _ _ G) as (Hlen & v' & Hback). ask_back Hlen Hback.
      reflexivity.
    + destruct (Hcw20_fwd _ _ _ G) as (Hlen & v' & Hback). ask_back Hlen Hback.
      reflexivity.
    + destruct (Hcw721_fwd _ _ _ G) as (Hlen & v' & Hback). ask_back Hlen Hback.
      reflexivity.
    + destruct (Hcw1155_fwd _ _ _ G) as (Hlen & v' & Hback). ask_back Hlen Hback.
      reflexivity.
    + destruct (Herc20_fwd _ _ _ G) as (Hsome & v' & Hback). simpl.
      key_nonempty Hsome. ask_back Hsome Hback. reflexivity.
    + destruct (Herc721_fwd _ _ _ G) as (Hsome & v' & Hback). simpl.
      key_nonempty Hsome. ask_back Hsome Hback. reflexivity.
    + destruct (Herc1155_fwd _ _ _ G) as (Hsome & v' & Hback). simpl.
      key_nonempty Hsome. ask_back Hsome Hback. reflexivity.
  - (* Pointee, then Pointer *)
    intros pointer r HP Hexists.
    destruct (String.eqb_spec pointer "") as [-> | Hne]; [discriminate HP |].
    use_inverse Hinv.
    unfold Pointee in HP; simpl in HP. key_nonempty Hne. rewrite E in HP.
    known_standard Hknown; simpl in HP; found_record HP G; clear Hexists;
      unfold Pointer.
    + destruct (Hnative_bwd _ _ _ G) as (Hsome & v' & Hback). simpl.
      key_nonempty Hsome. ask_back Hsome Hback. reflexivity.
    + destruct (Hcw20_bwd _ _ _ G) as (Hsome & v' & Hback). simpl.
      key_nonempty Hsome. ask_back Hsome Hback. reflexivity.
    + destruct (Hcw721_bwd _ _ _ G) as (Hsome & v' & Hback). simpl.
      key_nonempty Hsome. ask_back Hsome Hback. reflexivity.
    + destruct (Hcw1155_bwd _ _ _ G) as (Hsome & v' & Hback). simpl.
      key_nonempty Hsome. ask_back Hsome Hback. reflexivity.
    + destruct (Herc20_bwd _ _ _ G) as (Hlen & p' & v' & Hback & Hsame).
      ask_back Hlen Hback. exact Hsame.
    + destruct (Herc721_bwd _ _ _ G) as (Hlen & p' & v' & Hback & Hsame).
      ask_back Hlen Hback. exact Hsame.
    + destruct (Herc1155_bwd _ _ _ G) as (Hlen & p' & v' & Hback & Hsame).
      ask_back Hlen Hback. exact Hsame.
Qed.

Lemma pointer_round_trip_canonical_witness :
  (exists r',
     Pointee Scenario.querier Scenario.ctx
       (QueryPointeeRequest.mk PointerType_ERC20
          (QueryPointerResponse.Pointer
             (QueryPointerResponse.mk "sei1m0crksruq8nu60974x2snkfl3hwu33hmqxczgv" 2 true)))
       = Ok r' /\
     QueryPointeeResponse.Exists r' = true /\
     QueryPointeeResponse.Pointee r'
       = canonicalPointee PointerType_ERC20 "0x5aaeb6053f3e94c9b9a09f33669435e7ef1beaed") /\
  canonicalPointee PointerType_ERC20 "0x5aaeb6053f3e94c9b9a09f33669435e7ef1beaed"
    = "0x5aAeb6053F3E94C9b9A09f33669435E7Ef1BeAed".
Proof.
  split; [| vm_compute; reflexivity].
  destruct (pointer_round_trip_canonical Scenario.querier Scenario.ctx PointerType_ERC20)
    as (Hfwd & _ & _).
  - apply tableKeeper_RegistryInverse, Scenario_state_wf.
  - simpl. tauto.
  - apply (Hfwd "0x5aaeb6053f3e94c9b9a09f33669435e7ef1beaed"); vm_compute; reflexivity.
Defined.

(** C1 as the specification states it fails on a key that is not in
    canonical form.  The ERC20 token at 0x5aae...aed, written in lower
    case, has a registered pointer; [Pointee] on that pointer returns the
    address in its checksummed form, which is not the key that was asked.
    In the other direction the CW20 pointer written in lower case comes
    back checksummed as well. *)
Lemma round_trip_returns_checksummed_key :
  Pointer Scenario.querier Scenario.ctx
    (QueryPointerRequest.mk PointerType_ERC20 "0x5aaeb6053f3e94c9b9a09f33669435e7ef1beaed")
    = Ok (QueryPointerResponse.mk "sei1m0crksruq8nu60974x2snkfl3hwu33hmqxczgv" 2 true) /\
  Pointee Scenario.querier Scenario.ctx
    (QueryPointeeRequest.mk PointerType_ERC20 "sei1m0crksruq8nu60974x2snkfl3hwu33hmqxczgv")
    = Ok (QueryPointeeResponse.mk "0x5aAeb6053F3E94C9b9A09f33669435E7Ef1BeAed" 2 true) /\
  String.eqb "0x5aAeb6053F3E94C9b9A09f33669435E7Ef1BeAed"
             "0x5aaeb6053f3e94c9b9a09f33669435e7ef1beaed" = false /\
  Pointee Scenario.querier Scenario.ctx
    (QueryPointeeRequest.mk PointerType_CW20 "0x5aaeb6053f3e94c9b9a09f33669435e7ef1beaed")
    = Ok (QueryPointeeResponse.mk "sei1m0crksruq8nu60974x2snkfl3hwu33hmqxczgv" 1 true) /\
  Pointer Scenario.querier Scenario.ctx
    (QueryPointerRequest.mk PointerType_CW20 "sei1m0crksruq8nu60974x2snkfl3hwu33hmqxczgv")
    = Ok (QueryPointerResponse.mk "0x5aAeb6053F3E94C9b9A09f33669435E7Ef1BeAed" 1 true).
Proof. vm_compute. repeat split. Qed.

(** * Further properties of the handlers *)

(** ** The outcomes of [Pointer] and [Pointee] *)

Lemma uint32_range (v : Z) : (0 <= uint32 v < 2 ^ 32)%Z.
Proof. unfold uint32. apply Z.mod_pos_bound. reflexivity. Qed.

Lemma known_standard_dec (standard : PointerType) :
  {In standard knownStandards} + {~ In standard knownStandards}.
Proof. apply in_dec, Z.eq_dec. Qed.

(** X1: every outcome of [Pointer].  It fails in two cases only: on an empty
    pointee, with [ErrMustSpecifyPointee], and on a non-empty pointee with a
    standard outside the seven, with [ErrUnsupported].  When it succeeds the
    pointee is not empty and the standard is known, [Exists] is the answer
    of the getter of the standard, a response with [Exists = false] carries
    the empty pointer and version 0, and the version fits 32 bits. *)
Theorem Pointer_outcome :
  forall (q : Querier) (ctx : SdkContext) (req : QueryPointerRequest.t),
    match Pointer q ctx req with
    | Err e =>
        (QueryPointerRequest.Pointee req = "" /\ e = ErrMustSpecifyPointee) \/
        (QueryPointerRequest.Pointee req <> "" /\
         ~ In (QueryPointerRequest.PointerType req) knownStandards /\
         e = ErrUnsupported)
    | Ok r =>
        QueryPointerRequest.Pointee req <> "" /\
        In (QueryPointerRequest.PointerType req) knownStandards /\
        QueryPointerResponse.Exists r
          = pointerRegistered (q_Keeper q) ctx (QueryPointerRequest.PointerType req)
              (QueryPointerRequest.Pointee req) /\
        (QueryPointerResponse.Exists r = false ->
           QueryPointerResponse.Pointer r = "" /\ QueryPointerResponse.Version r = 0%Z) /\
        (0 <= QueryPointerResponse.Version r < 2 ^ 32)%Z
    end.
Proof.
  intros q ctx [standard pointee]. simpl.
  destruct (String.eqb_spec pointee "") as [-> | Hne]; [left; now split |].
  unfold Pointer, pointerRegistered; simpl. key_nonempty Hne.
  destruct (known_standard_dec standard) as [Hknown | Hout].
  - pose proof Hknown as Hin.
    known_standard Hknown; simpl; destruct_getter;
      match goal with b : bool |- _ => destruct b end; simpl;
      (split; [assumption | split; [assumption | split; [reflexivity | split]]]);
      first [ intros _; now split | discriminate | apply uint32_range | now split ].
  - destruct (not_known_standard standard Hout) as (E1 & E2 & E3 & E4 & E5 & E6 & E7).
    rewrite E1, E2, E3, E4, E5, E6, E7. right. now repeat split.
Qed.

(** X2: every outcome of [Pointee], the mirror of [Pointer]: it fails on an
    empty pointer with [ErrMustSpecifyPointer] and on an unknown standard
    with [ErrUnsupported], and in no other case. *)
Theorem Pointee_outcome :
  forall (q : Querier) (ctx : SdkContext) (req : QueryPointeeRequest.t),
    match Pointee q ctx req with
    | Err e =>
        (QueryPointeeRequest.Pointer req = "" /\ e = ErrMustSpecifyPointer) \/
        (QueryPointeeRequest.Pointer req <> "" /\
         ~ In (QueryPointeeRequest.PointerType req) knownStandards /\
         e = ErrUnsupported)
    | Ok r =>
        QueryPointeeRequest.Pointer req <> "" /\
        In (QueryPointeeRequest.PointerType req) knownStandards /\
        QueryPointeeResponse.Exists r
          = pointeeRegistered (q_Keeper q) ctx (QueryPointeeRequest.PointerType req)
              (QueryPointeeRequest.Pointer req) /\
        (QueryPointeeResponse.Exists r = false ->
           QueryPointeeResponse.Pointee r = "" /\ QueryPointeeResponse.Version r = 0%Z) /\
        (0 <= QueryPointeeResponse.Version r < 2 ^ 32)%Z
    end.
Proof.
  intros q ctx [standard pointer]. simpl.
  destruct (String.eqb_spec pointer "") as [-> | Hne]; [left; now split |].
  unfold Pointee, pointeeRegistered; simpl. key_nonempty Hne.
  destruct (known_standard_dec standard) as [Hknown | Hout].
  - pose proof Hknown as Hin.
    known_standard Hknown; simpl; destruct_getter;
      match goal with b : bool |- _ => destruct b end; simpl;
      (split; [assumption | split; [assumption | split; [reflexivity | split]]]);
      first [ intros _; now split | discriminate | apply uint32_range | now split ].
  - destruct (not_known_standard standard Hout) as (E1 & E2 & E3 & E4 & E5 & E6 & E7).
    rewrite E1, E2, E3, E4, E5, E6, E7. right. now repeat split.
Qed.

(** ** Hexadecimal addresses: length, letter case, canonical form *)

Lemma length_BytesToAddress (b : list byte) : length (BytesToAddress b) = AddressLength.
Proof.
  unfold BytesToAddress, AddressLength.
  destruct (Nat.ltb_spec 20 (length b)) as [Hlong | Hshort];
    rewrite length_app, repeat_length, ?length_skipn; lia.
Qed.

Lemma length_HexToAddress (s : string) : length (HexToAddress s) = AddressLength.
Proof. apply length_BytesToAddress. Qed.

Lemma HexToAddress_canonical (s : string) :
  HexToAddress (Hex (HexToAddress s)) = HexToAddress s.
Proof. apply HexToAddress_Hex, length_HexToAddress. Qed.

(** Induction on a string two characters at a time. *)
Lemma string_pair_ind (P : string -> Prop) :
  P "" ->
  (forall c, P (String c "")) ->
  (forall c1 c2 s, P s -> P (String c1 (String c2 s))) ->
  forall s, P s.
Proof.
  intros H0 H1 H2 s.
  enough (H : P s /\ forall c, P (String c s)) by apply H.
  induction s as [|c s [IHs IHcs]]; split; auto.
Qed.

Ltac each_ascii c :=
  destruct c as [[|] [|] [|] [|] [|] [|] [|] [|]].

Lemma reverseHexTable_toLower (c : ascii) :
  reverseHexTable (Bech32Decoder.toLower c) = reverseHexTable c.
Proof. each_ascii c; reflexivity. Qed.

Lemma Hex2Bytes_lowerASCII (s : string) : Hex2Bytes (lowerASCII s) = Hex2Bytes s.
Proof.
  induction s as [| c | c1 c2 s IH] using string_pair_ind; try reflexivity.
  cbn [lowerASCII Hex2Bytes]. rewrite !reverseHexTable_toLower, IH. reflexivity.
Qed.

Lemma has0xPrefix_eqb (c1 c2 : ascii) (rest : string) :
  has0xPrefix (String c1 (String c2 rest))
    = Ascii.eqb c1 "0" && (Ascii.eqb c2 "x" || Ascii.eqb c2 "X").
Proof. each_ascii c1; reflexivity. Qed.

Lemma has0xPrefix_lowerASCII (s : string) : has0xPrefix (lowerASCII s) = has0xPrefix s.
Proof.
  destruct s as [| c1 [| c2 rest]]; try reflexivity.
  - each_ascii c1; reflexivity.
  - cbn [lowerASCII]. rewrite !has0xPrefix_eqb. f_equal.
    + each_ascii c1; reflexivity.
    + each_ascii c2; reflexivity.
Qed.

Lemma length_lowerASCII (s : string) : String.length (lowerASCII s) = String.length s.
Proof. induction s as [|c s IH]; simpl; [reflexivity | now rewrite IH]. Qed.

Lemma substring_lowerASCII (n m : nat) (s : string) :
  String.substring n m (lowerASCII s) = lowerASCII (String.substring n m s).
Proof.
  revert n m. induction s as [|c s IH]; intros [|n] [|m]; simpl;
    try reflexivity; try apply IH. now rewrite IH.
Qed.

Lemma strip0x_lowerASCII (s : string) : strip0x (lowerASCII s) = lowerASCII (strip0x s).
Proof.
  unfold strip0x. rewrite has0xPrefix_lowerASCII, length_lowerASCII, substring_lowerASCII.
  now destruct (has0xPrefix s).
Qed.

Lemma FromHex_strip0x (s : string) :
  FromHex s
    = Hex2Bytes (if Nat.odd (String.length (strip0x s)) then String "0" (strip0x s)
                 else strip0x s).
Proof. reflexivity. Qed.

Lemma HexToAddress_lowerASCII (s : string) : HexToAddress (lowerASCII s) = HexToAddress s.
Proof.
  unfold HexToAddress. f_equal. rewrite !FromHex_strip0x.
  rewrite strip0x_lowerASCII, length_lowerASCII.
  destruct (Nat.odd _).
  - change (String "0" (lowerASCII (strip0x s))) with (lowerASCII (String "0" (strip0x s))).
    apply Hex2Bytes_lowerASCII.
  - apply Hex2Bytes_lowerASCII.
Qed.

Lemma lowerASCII_nonempty (s : string) : s <> "" -> lowerASCII s <> "".
Proof. destruct s; [contradiction | discriminate]. Qed.

(** Two non-empty strings that parse to the same address get the same
    answers wherever a handler parses its argument. *)
Lemma same_address_same_answer `{Imports} (q : Querier) (ctx : SdkContext) (s s' : string) :
  s <> "" -> s' <> "" -> HexToAddress s' = HexToAddress s ->
  SeiAddressByEVMAddress q ctx (QuerySeiAddressByEVMAddressRequest.mk s')
    = SeiAddressByEVMAddress q ctx (QuerySeiAddressByEVMAddressRequest.mk s) /\
  (forall data,
     StaticCall q ctx (QueryStaticCallRequest.mk data s')
       = StaticCall q ctx (QueryStaticCallRequest.mk data s)) /\
  (forall standard, In standard codeTemplateStandards ->
     Pointer q ctx (QueryPointerRequest.mk standard s')
       = Pointer q ctx (QueryPointerRequest.mk standard s)) /\
  (forall standard, In standard hexPointerStandards ->
     Pointee q ctx (QueryPointeeRequest.mk standard s')
       = Pointee q ctx (QueryPointeeRequest.mk standard s)).
Proof.
  intros Hs Hs' Hparse.
  apply String.eqb_neq in Hs, Hs'.
  split; [| split; [| split]].
  - unfold SeiAddressByEVMAddress; simpl. now rewrite Hs, Hs', Hparse.
  - intros data. unfold StaticCall; simpl. now rewrite Hs, Hs', Hparse.
  - intros standard Hin. unfold Pointer; simpl. rewrite Hs, Hs'.
    known_standard Hin; simpl; now rewrite Hparse.
  - intros standard Hin. unfold Pointee; simpl. rewrite Hs, Hs'.
    known_standard Hin; simpl; now rewrite Hparse.
Qed.

(** X3: an argument that is a hexadecimal address is used only as the
    address it parses to, so its spelling does not matter.  For a non-empty
    string [s], the string in lower case and the checksummed form of its
    address get the same answer as [s] itself from [SeiAddressByEVMAddress],
    from [StaticCall] as target, from [Pointer] for ERC20, ERC721 and
    ERC1155 and from [Pointee] for CW20, CW721 and CW1155. *)
Theorem hex_arguments_ignore_spelling `{Imports} :
  forall (q : Querier) (ctx : SdkContext) (s s' : string),
    s <> "" ->
    In s' [ lowerASCII s; Hex (HexToAddress s) ] ->
    SeiAddressByEVMAddress q ctx (QuerySeiAddressByEVMAddressRequest.mk s')
      = SeiAddressByEVMAddress q ctx (QuerySeiAddressByEVMAddressRequest.mk s) /\
    (forall data,
       StaticCall q ctx (QueryStaticCallRequest.mk data s')
         = StaticCall q ctx (QueryStaticCallRequest.mk data s)) /\
    (forall standard, In standard codeTemplateStandards ->
       Pointer q ctx (QueryPointerRequest.mk standard s')
         = Pointer q ctx (QueryPointerRequest.mk standard s)) /\
    (forall standard, In standard hexPointerStandards ->
       Pointee q ctx (QueryPointeeRequest.mk standard s')
         = Pointee q ctx (QueryPointeeRequest.mk standard s)).
Proof.
  intros q ctx s s' Hs Hspelling.
  assert (Hsame : s' <> "" /\ HexToAddress s' = HexToAddress s).
  { destruct Hspelling as [<- | [<- | []]].
    - split; [now apply lowerASCII_nonempty | apply HexToAddress_lowerASCII].
    - split; [discriminate | apply HexToAddress_canonical]. }
  destruct Hsame as [Hs' Hparse].
  now apply same_address_same_answer.
Qed.

Lemma hex_arguments_ignore_spelling_witness :
  Pointer Scenario.querier Scenario.ctx
    (QueryPointerRequest.mk PointerType_ERC20
       (lowerASCII "0X5AAEB6053F3E94C9B9A09F33669435E7EF1BEAED"))
    = Pointer Scenario.querier Scenario.ctx
        (QueryPointerRequest.mk PointerType_ERC20
           "0X5AAEB6053F3E94C9B9A09F33669435E7EF1BEAED") /\
  Pointee Scenario.querier Scenario.ctx
    (QueryPointeeRequest.mk PointerType_CW20
       (lowerASCII "0X5AAEB6053F3E94C9B9A09F33669435E7EF1BEAED"))
    = Pointee Scenario.querier Scenario.ctx
        (QueryPointeeRequest.mk PointerType_CW20
           "0X5AAEB6053F3E94C9B9A09F33669435E7EF1BEAED").
Proof.
  destruct (@hex_arguments_ignore_spelling Scenario.imports Scenario.querier Scenario.ctx
              "0X5AAEB6053F3E94C9B9A09F33669435E7EF1BEAED"
              (lowerASCII "0X5AAEB6053F3E94C9B9A09F33669435E7EF1BEAED"))
    as (_ & _ & HP & HQ).
  - discriminate.
  - left. reflexivity.
  - split; [apply HP | apply HQ]; simpl; tauto.
Defined.

Lemma reverseHexTable_Some (c : ascii) (n : N) :
  reverseHexTable c = Some n -> (n < 16)%N /\ hexDigit n = Bech32Decoder.toLower c.
Proof.
  each_ascii c; intros E; vm_compute in E; try discriminate E;
    injection E as <-; split; reflexivity.
Qed.

Lemma to_N_byteOfN (n : N) : (n < 256)%N -> Byte.to_N (byteOfN n) = n.
Proof.
  intros Hn. unfold byteOfN. destruct (Byte.of_N n) as [b|] eqn:E.
  - now apply Byte.to_of_N.
  - apply Byte.of_N_None_iff in E. lia.
Qed.

Lemma hexEncode_Hex2Bytes (s : string) :
  isHex s = true ->
  Nat.even (String.length s) = true ->
  hexEncode (Hex2Bytes s) = lowerASCII s /\ 2 * length (Hex2Bytes s) = String.length s.
Proof.
  induction s as [| c | c1 c2 s IH] using string_pair_ind; intros Hhex Heven.
  - split; reflexivity.
  - discriminate Heven.
  - cbn [isHex] in Hhex.
    destruct (reverseHexTable c1) as [a|] eqn:E1; [| discriminate].
    destruct (reverseHexTable c2) as [b|] eqn:E2; [| discriminate].
    destruct (reverseHexTable_Some _ _ E1) as [Ha Hc1].
    destruct (reverseHexTable_Some _ _ E2) as [Hb Hc2].
    destruct (IH Hhex Heven) as [IHenc IHlen].
    cbn [Hex2Bytes]. rewrite E1, E2. cbn [hexEncode lowerASCII length String.length].
    rewrite to_N_byteOfN by lia.
    replace ((16 * a + b) / 16)%N with a
      by (apply (N.div_unique _ 16 a b); lia).
    replace ((16 * a + b) mod 16)%N with b
      by (apply (N.mod_unique _ 16 a b); lia).
    rewrite Hc1, Hc2, IHenc. split; [reflexivity | lia].
Qed.

Lemma toLower_checksummed_digit (n : N) (upper : bool) :
  (n < 16)%N ->
  Bech32Decoder.toLower
    (if (57 <? N_of_ascii (hexDigit n))%N && upper
     then ascii_of_N (N_of_ascii (hexDigit n) - 32) else hexDigit n) = hexDigit n.
Proof.
  intros Hn.
  assert (Hcases : In n (map N.of_nat (seq 0 16))).
  { replace n with (N.of_nat (N.to_nat n)) by apply N2Nat.id.
    apply in_map, in_seq. lia. }
  simpl in Hcases.
  repeat (destruct Hcases as [<- | Hcases]; [destruct upper; reflexivity |]).
  contradiction.
Qed.

Lemma lowerASCII_checksummed (bs : list byte) (hash : list N) :
  lowerASCII (applyChecksum (hexEncode bs) hash) = hexEncode bs.
Proof.
  revert hash. induction bs as [|b bs IH]; intros hash.
  - destruct hash; reflexivity.
  - destruct (nibbles_bounded b) as [Hhi Hlo].
    pose proof (toLower_checksummed_digit _ false Hhi) as Hhi0.
    pose proof (toLower_checksummed_digit _ false Hlo) as Hlo0.
    rewrite andb_false_r in Hhi0, Hlo0.
    cbn [hexEncode]. destruct hash as [|h1 [|h2 hash]]; cbn [applyChecksum lowerASCII].
    + rewrite Hhi0, Hlo0. do 2 f_equal.
      rewrite <- (applyChecksum_nil (hexEncode bs)) at 1. apply IH.
    + rewrite (toLower_checksummed_digit _ _ Hhi), Hlo0. do 2 f_equal.
      rewrite <- (applyChecksum_nil (hexEncode bs)) at 1. apply IH.
    + rewrite (toLower_checksummed_digit _ _ Hhi), (toLower_checksummed_digit _ _ Hlo).
      do 2 f_equal. apply IH.
Qed.

Lemma lowerASCII_with_prefix (s : string) :
  has0xPrefix s = true ->
  lowerASCII s = String "0" (String "x" (lowerASCII (strip0x s))).
Proof.
  intros Hprefix. unfold strip0x. rewrite Hprefix.
  destruct s as [| c1 [| c2 rest]]; try discriminate Hprefix.
  - each_ascii c1; discriminate Hprefix.
  - rewrite has0xPrefix_eqb in Hprefix. apply andb_prop in Hprefix.
    destruct Hprefix as [H0 Hx]. apply Ascii.eqb_eq in H0. subst c1.
    cbn [String.length String.substring Nat.sub lowerASCII].
    rewrite Nat.sub_0_r, substring_all. f_equal.
    apply orb_prop in Hx. destruct Hx as [Hx | Hx]; apply Ascii.eqb_eq in Hx; now subst c2.
Qed.

(** X4: the checksummed form of a well-formed address is the address up to
    the case of its letters.  For forty hexadecimal digits, with or without
    the 0x prefix, [Hex (HexToAddress s)] is 0x followed by the same digits,
    in some case, and has 42 characters; so a pointee key or pointer address
    written with the prefix equals its canonical form once both are put in
    lower case, for every standard. *)
Theorem canonical_form_changes_case_only :
  forall (s : string),
    IsHexAddress s = true ->
    lowerASCII (Hex (HexToAddress s)) = String "0" (String "x" (lowerASCII (strip0x s))) /\
    String.length (Hex (HexToAddress s)) = 42 /\
    (has0xPrefix s = true ->
     forall standard,
       lowerASCII (canonicalPointee standard s) = lowerASCII s /\
       lowerASCII (canonicalPointer standard s) = lowerASCII s).
Proof.
  intros s Hwf. unfold IsHexAddress in Hwf. fold (strip0x s) in Hwf.
  apply andb_prop in Hwf. destruct Hwf as [Hlen Hhex].
  apply Nat.eqb_eq in Hlen.
  assert (Heven : Nat.even (String.length (strip0x s)) = true) by now rewrite Hlen.
  destruct (hexEncode_Hex2Bytes _ Hhex Heven) as [Henc Hbytes].
  assert (Haddr : HexToAddress s = Hex2Bytes (strip0x s)).
  { unfold HexToAddress. rewrite FromHex_strip0x.
    rewrite <- Nat.negb_even, Heven. cbn [negb].
    apply BytesToAddress_id. rewrite Hlen in Hbytes. unfold AddressLength in *. lia. }
  assert (Hlower : lowerASCII (Hex (HexToAddress s))
                   = String "0" (String "x" (lowerASCII (strip0x s)))).
  { rewrite Haddr. unfold Hex, checksumHex. cbn [lowerASCII].
    rewrite lowerASCII_checksummed, Henc. reflexivity. }
  split; [exact Hlower | split].
  - rewrite <- (length_lowerASCII (Hex _)), Hlower. cbn [String.length].
    rewrite length_lowerASCII, Hlen. reflexivity.
  - intros Hprefix standard. unfold canonicalPointee, canonicalPointer.
    destruct (isCodeTemplate standard); split; try reflexivity;
      rewrite (lowerASCII_with_prefix s Hprefix); exact Hlower.
Qed.

Lemma canonical_form_changes_case_only_witness :
  lowerASCII (Hex (HexToAddress "0X5AAEB6053F3E94C9B9A09F33669435E7EF1BEAED"))
    = String "0" (String "x" (lowerASCII (strip0x "0X5AAEB6053F3E94C9B9A09F33669435E7EF1BEAED"))) /\
  lowerASCII (canonicalPointee PointerType_ERC20 "0X5AAEB6053F3E94C9B9A09F33669435E7EF1BEAED")
    = lowerASCII "0X5AAEB6053F3E94C9B9A09F33669435E7EF1BEAED".
Proof.
  destruct (canonical_form_changes_case_only "0X5AAEB6053F3E94C9B9A09F33669435E7EF1BEAED")
    as (Hlower & _ & Hcanonical).
  - vm_compute. reflexivity.
  - split; [exact Hlower |].
    apply (Hcanonical eq_refl PointerType_ERC20).
Defined.

(** ** Account associations, there and back *)

Lemma tableKeeper_InverseAssociation cfg ak evm (ctx : SdkContext) :
  wfAssociations (associations (ctxStore ctx)) ->
  InverseAssociation (tableKeeper cfg ak evm) ctx.
Proof.
  intros [Hnative Hforeign Hnonempty Hlen]. rewrite Forall_forall in Hnonempty, Hlen.
  split; simpl.
  - intros seiAddr evmAddr Hfound.
    destruct (lookupBy bytes_eqb nativeAddress seiAddr _) as [a|] eqn:Ha; [| discriminate].
    injection Hfound as <-.
    apply (lookupBy_Some _ _ _ _ bytes_eqb_sound) in Ha. destruct Ha as [Hin <-].
    split; [now apply Hlen |]. now lookup_record a.
  - intros evmAddr seiAddr Hfound.
    destruct (lookupBy bytes_eqb foreignAddress evmAddr _) as [a|] eqn:Ha; [| discriminate].
    injection Hfound as <-.
    apply (lookupBy_Some _ _ _ _ bytes_eqb_sound) in Ha. destruct Ha as [Hin <-].
    split; [now apply Hnonempty |]. now lookup_record a.
Qed.

Lemma Scenario_associations_wf : wfAssociations (associations Scenario.state).
Proof.
  constructor; simpl.
  - constructor; [intros [] | constructor].
  - constructor; [intros [] | constructor].
  - constructor; [| constructor]. simpl. vm_compute. discriminate.
  - constructor; [| constructor]. apply length_HexToAddress.
Qed.

(** X5: the two address lookups undo each other over associations that are
    a bijection.  When [EVMAddressBySeiAddress] finds an EVM address for an
    account address, [SeiAddressByEVMAddress] asked about that EVM address
    answers with the bech32 form of the account the first string decoded
    to.  When [SeiAddressByEVMAddress] finds an account for a string, and
    the decoder reads the bech32 form of that account back, then
    [EVMAddressBySeiAddress] asked about it answers with the checksummed
    form of the address the string parsed to. *)
Theorem address_association_round_trip `{Imports} :
  forall (q : Querier) (ctx : SdkContext),
    InverseAssociation (q_Keeper q) ctx ->
    (forall s r,
       EVMAddressBySeiAddress q ctx (QueryEVMAddressBySeiAddressRequest.mk s) = Ok r ->
       QueryEVMAddressBySeiAddressResponse.Associated r = true ->
       exists seiAddr,
         AccAddressFromBech32 s = Ok seiAddr /\
         SeiAddressByEVMAddress q ctx
           (QuerySeiAddressByEVMAddressRequest.mk
              (QueryEVMAddressBySeiAddressResponse.EvmAddress r))
           = Ok (QuerySeiAddressByEVMAddressResponse.mk (AccAddress_String seiAddr) true)) /\
    (forall s r,
       SeiAddressByEVMAddress q ctx (QuerySeiAddressByEVMAddressRequest.mk s) = Ok r ->
       QuerySeiAddressByEVMAddressResponse.Associated r = true ->
       AccAddressFromBech32 (QuerySeiAddressByEVMAddressResponse.SeiAddress r)
         = Ok (fst (GetSeiAddress (q_Keeper q) ctx (HexToAddress s))) ->
       EVMAddressBySeiAddress q ctx
         (QueryEVMAddressBySeiAddressRequest.mk
            (QuerySeiAddressByEVMAddressResponse.SeiAddress r))
         = Ok (QueryEVMAddressBySeiAddressResponse.mk (Hex (HexToAddress s)) true)).
Proof.
  intros q ctx [Hevm Hsei]. split.
  - intros s r Hr Hassoc. unfold EVMAddressBySeiAddress in Hr; simpl in Hr.
    destruct (String.eqb s ""); [discriminate Hr |].
    destruct (AccAddressFromBech32 s) as [seiAddr | err]; [| discriminate Hr].
    destruct (GetEVMAddress _ _ _) as [evmAddr found'] eqn:G.
    destruct found'; simpl in Hr; injection Hr as <-; [| discriminate Hassoc].
    destruct (Hevm _ _ G) as [Hlen Hback].
    exists seiAddr. split; [reflexivity |].
    unfold SeiAddressByEVMAddress; simpl.
    now rewrite (HexToAddress_Hex _ Hlen), Hback.
  - intros s r Hr Hassoc Hdecode. unfold SeiAddressByEVMAddress in Hr; simpl in Hr.
    destruct (String.eqb s ""); [discriminate Hr |].
    destruct (GetSeiAddress _ _ _) as [seiAddr found'] eqn:G.
    destruct found'; simpl in Hr; injection Hr as <-; [| discriminate Hassoc].
    destruct (Hsei _ _ G) as [Hsome Hback]. simpl in Hdecode.
    unfold EVMAddressBySeiAddress; simpl.
    pose proof (AccAddress_String_nonempty _ Hsome) as Hrendered.
    key_nonempty Hrendered. now rewrite Hdecode, Hback.
Qed.

Lemma address_association_round_trip_witness :
  SeiAddressByEVMAddress Scenario.querier Scenario.ctx
    (QuerySeiAddressByEVMAddressRequest.mk "0xfB6916095ca1df60bB79Ce92cE3Ea74c37c5d359")
    = Ok (QuerySeiAddressByEVMAddressResponse.mk
            "sei16y3q5r8503aeheazu6agnapfwch8hxkm8ws0ec" true) /\
  @EVMAddressBySeiAddress Scenario.imports Scenario.querier Scenario.ctx
    (QueryEVMAddressBySeiAddressRequest.mk "sei16y3q5r8503aeheazu6agnapfwch8hxkm8ws0ec")
    = Ok (QueryEVMAddressBySeiAddressResponse.mk
            (Hex (HexToAddress "0XFB6916095CA1DF60BB79CE92CE3EA74C37C5D359")) true).
Proof.
  destruct (@address_association_round_trip Scenario.imports Scenario.querier Scenario.ctx)
    as [Hthere Hback].
  - apply tableKeeper_InverseAssociation, Scenario_associations_wf.
  - split.
    + destruct (Hthere "sei16y3q5r8503aeheazu6agnapfwch8hxkm8ws0ec"
                  (QueryEVMAddressBySeiAddressResponse.mk
                     "0xfB6916095ca1df60bB79Ce92cE3Ea74c37c5d359" true))
        as (seiAddr & Hdecoded & Hanswer).
      * vm_compute. reflexivity.
      * reflexivity.
      * vm_compute in Hdecoded. injection Hdecoded as <-. exact Hanswer.
    + apply (Hback "0XFB6916095CA1DF60BB79CE92CE3EA74C37C5D359"
               (QuerySeiAddressByEVMAddressResponse.mk
                  "sei16y3q5r8503aeheazu6agnapfwch8hxkm8ws0ec" true));
        vm_compute; reflexivity.
Defined.

(** ** What a static call passes on and brings back *)

(** X6: a static call with a target makes exactly one call into the EVM, to
    the address the target parses to and with the call data of the request
    unchanged, on the snapshot, height and gas parameters of the query
    context.  Its result is the result of that call: an error of the
    execution comes back as that error and never as a response, and a
    successful execution comes back as a response that carries exactly the
    returned bytes, when there are none as well.  Under a meter that reports
    a limit, the meter of the context ends as the execution left it. *)
Theorem static_call_forwards_request_and_result `{Imports} :
  forall (q : Querier) (ctx : SdkContext) (req : QueryStaticCallRequest.t),
    QueryStaticCallRequest.To req <> "" ->
    exists c : EVMCall,
      evmCalls (snd (StaticCall q ctx req)) = [c] /\
      callTo c = HexToAddress (QueryStaticCallRequest.To req) /\
      callData c = QueryStaticCallRequest.Data req /\
      ctxStore (callCtx c) = ctxStore ctx /\
      ctxBlockHeight (callCtx c) = ctxBlockHeight ctx /\
      ctxGasMultiplier (callCtx c) = ctxGasMultiplier ctx /\
      (forall err,
         fst (StaticCall q ctx req) = Err err <-> fst (runCall (q_Keeper q) c) = Err err) /\
      (forall resp,
         fst (StaticCall q ctx req) = Ok resp
         <-> fst (runCall (q_Keeper q) c) = Ok (QueryStaticCallResponse.Data resp)) /\
      (Limit (ctxGasMeter ctx) <> 0%Z ->
       gasMeterAfter (snd (StaticCall q ctx req)) = snd (runCall (q_Keeper q) c)).
Proof.
  intros q ctx req Hto.
  destruct (StaticCall_with_target q ctx req Hto) as [Hcalls Hmeter].
  eexists. split; [exact Hcalls |].
  unfold runCall; cbn [callCtx callFrom callTo callData].
  repeat (split; [first [reflexivity
                        | unfold staticCallContext;
                          destruct (Limit (ctxGasMeter ctx) =? 0)%Z; reflexivity] |]).
  assert (Hresult :
            fst (StaticCall q ctx req)
            = match fst (StaticCallEVM (q_Keeper q) (staticCallContext q ctx)
                           (GetModuleAddress (AccountKeeper (q_Keeper q)) ModuleName)
                           (HexToAddress (QueryStaticCallRequest.To req))
                           (QueryStaticCallRequest.Data req)) with
              | Ok res => Ok (QueryStaticCallResponse.mk res)
              | Err err => Err err
              end).
  { unfold StaticCall. key_nonempty Hto.
    destruct (StaticCallEVM _ _ _ _ _) as [[res | err] meter]; reflexivity. }
  rewrite Hresult.
  destruct (fst (StaticCallEVM _ _ _ _ _)) as [res | err']; (split; [| split]).
  - intros err. split; discriminate.
  - intros [data]. simpl. split; intros E; injection E as ->; reflexivity.
  - intros Hlimit. rewrite Hmeter. apply Z.eqb_neq in Hlimit. now rewrite Hlimit.
  - intros err. split; intros E; injection E as ->; reflexivity.
  - intros resp. split; discriminate.
  - intros Hlimit. rewrite Hmeter. apply Z.eqb_neq in Hlimit. now rewrite Hlimit.
Qed.

Lemma static_call_forwards_request_and_result_witness :
  exists c : EVMCall,
    evmCalls (snd (@StaticCall Scenario.imports Scenario.querier Scenario.meteredCtx
                     (QueryStaticCallRequest.mk [] "0x5aaeb6053f3e94c9b9a09f33669435e7ef1beaed")))
      = [c] /\
    callTo c = Scenario.token /\
    fst (@StaticCall Scenario.imports Scenario.querier Scenario.meteredCtx
           (QueryStaticCallRequest.mk [] "0x5aaeb6053f3e94c9b9a09f33669435e7ef1beaed"))
      = Ok (QueryStaticCallResponse.mk []) /\
    GasConsumed
      (gasMeterAfter
         (snd (@StaticCall Scenario.imports Scenario.querier Scenario.meteredCtx
                 (QueryStaticCallRequest.mk [] "0x5aaeb6053f3e94c9b9a09f33669435e7ef1beaed"))))
      = 21400%Z.
Proof.
  destruct (@static_call_forwards_request_and_result Scenario.imports Scenario.querier
              Scenario.meteredCtx
              (QueryStaticCallRequest.mk [] "0x5aaeb6053f3e94c9b9a09f33669435e7ef1beaed"))
    as (c & Hc & Hto & Hdata & _ & _ & _ & _ & Hok & Hmeter).
  - discriminate.
  - exists c. split; [exact Hc | split; [exact Hto | split]].
    + apply Hok. vm_compute in Hc. injection Hc as <-. reflexivity.
    + rewrite Hmeter by discriminate. vm_compute in Hc. injection Hc as <-. reflexivity.
Defined.

(** ** Strings that are no address *)

Lemma hex_digit_is_not_prefix (c : ascii) (rest : string) :
  reverseHexTable c = None -> has0xPrefix (String c rest) = false.
Proof.
  intros Hc. destruct rest as [|c2 rest].
  - each_ascii c; reflexivity.
  - rewrite has0xPrefix_eqb. destruct (Ascii.eqb_spec c "0") as [-> | _];
      [discriminate Hc | reflexivity].
Qed.

Lemma HexToAddress_no_digit (c : ascii) (rest : string) :
  reverseHexTable c = None -> HexToAddress (String c rest) = zeroAddress.
Proof.
  intros Hc. unfold HexToAddress, FromHex.
  rewrite (hex_digit_is_not_prefix c rest Hc).
  destruct (Nat.odd _).
  - cbn [Hex2Bytes]. rewrite Hc. now destruct (reverseHexTable "0").
  - destruct rest as [|c2 rest]; [reflexivity |].
    cbn [Hex2Bytes]. now rewrite Hc.
Qed.

(** X7: a string that does not start with a hexadecimal digit is not
    rejected anywhere an address is parsed: it stands for the zero address.
    [SeiAddressByEVMAddress], [StaticCall] as target, [Pointer] for ERC20,
    ERC721 and ERC1155 and [Pointee] for CW20, CW721 and CW1155 answer it as
    they answer 0x0000000000000000000000000000000000000000. *)
Theorem string_without_digits_is_zero_address `{Imports} :
  forall (q : Querier) (ctx : SdkContext) (c : ascii) (rest : string),
    reverseHexTable c = None ->
    HexToAddress (String c rest) = zeroAddress /\
    Hex zeroAddress = "0x0000000000000000000000000000000000000000" /\
    SeiAddressByEVMAddress q ctx (QuerySeiAddressByEVMAddressRequest.mk (String c rest))
      = SeiAddressByEVMAddress q ctx
          (QuerySeiAddressByEVMAddressRequest.mk (Hex zeroAddress)) /\
    (forall data,
       StaticCall q ctx (QueryStaticCallRequest.mk data (String c rest))
         = StaticCall q ctx (QueryStaticCallRequest.mk data (Hex zeroAddress))) /\
    (forall standard, In standard codeTemplateStandards ->
       Pointer q ctx (QueryPointerRequest.mk standard (String c rest))
         = Pointer q ctx (QueryPointerRequest.mk standard (Hex zeroAddress))) /\
    (forall standard, In standard hexPointerStandards ->
       Pointee q ctx (QueryPointeeRequest.mk standard (String c rest))
         = Pointee q ctx (QueryPointeeRequest.mk standard (Hex zeroAddress))).
Proof.
  intros q ctx c rest Hc.
  pose proof (HexToAddress_no_digit c rest Hc) as Hzero.
  split; [exact Hzero | split; [vm_compute; reflexivity |]].
  apply same_address_same_answer; [discriminate | discriminate |].
  rewrite Hzero. symmetry. apply HexToAddress_Hex. reflexivity.
Qed.

Lemma string_without_digits_is_zero_address_witness :
  exists c : EVMCall,
    evmCalls (snd (@StaticCall Scenario.imports Scenario.querier Scenario.ctx
                     (QueryStaticCallRequest.mk [x01]
                        "sei1m0crksruq8nu60974x2snkfl3hwu33hmqxczgv"))) = [c] /\
    callTo c = zeroAddress.
Proof.
  destruct (@string_without_digits_is_zero_address Scenario.imports Scenario.querier
              Scenario.ctx "s"%char "ei1m0crksruq8nu60974x2snkfl3hwu33hmqxczgv")
    as (_ & _ & _ & Hcall & _).
  - reflexivity.
  - rewrite (Hcall [x01]). eexists. split; vm_compute; reflexivity.
Defined.

(** ** The checksummed form is a well-formed address *)

Lemma isHex_lowerASCII (s : string) : isHex (lowerASCII s) = isHex s.
Proof.
  induction s as [|c s IH]; [reflexivity |].
  cbn [lowerASCII isHex]. now rewrite reverseHexTable_toLower, IH.
Qed.

Lemma isHex_hexEncode (bs : list byte) : isHex (hexEncode bs) = true.
Proof.
  induction bs as [|b bs IH]; [reflexivity |].
  destruct (nibbles_bounded b) as [Hhi Hlo].
  pose proof (reverseHexTable_hexDigit _ false Hhi) as Hhi0.
  pose proof (reverseHexTable_hexDigit _ false Hlo) as Hlo0.
  rewrite andb_false_r in Hhi0, Hlo0.
  cbn [hexEncode isHex]. now rewrite Hhi0, Hlo0.
Qed.

Lemma strip0x_Hex (a : Address) :
  has0xPrefix (Hex a) = true /\
  lowerASCII (strip0x (Hex a)) = hexEncode a /\
  String.length (strip0x (Hex a)) = 2 * length a.
Proof.
  unfold strip0x, Hex, checksumHex. set (body := applyChecksum _ _).
  replace (has0xPrefix (String "0" (String "x" body))) with true by reflexivity.
  cbn [String.length String.substring Nat.sub]. rewrite Nat.sub_0_r, substring_all.
  unfold body. rewrite lowerASCII_checksummed, length_applyChecksum, length_hexEncode.
  repeat split.
Qed.

(** X8: [Hex] and [HexToAddress] are inverse on addresses.  Whatever the
    string, [HexToAddress] returns twenty bytes; the checksummed form of
    twenty bytes is a well-formed hexadecimal address with the 0x prefix
    that parses back to the same bytes; so the canonical form of a key is
    its own canonical form, for every standard. *)
Theorem Hex_HexToAddress_inverse :
  (forall s : string, length (HexToAddress s) = AddressLength) /\
  (forall a : Address,
     length a = AddressLength ->
     HexToAddress (Hex a) = a /\
     IsHexAddress (Hex a) = true /\
     has0xPrefix (Hex a) = true) /\
  (forall (standard : PointerType) (s : string),
     canonicalPointee standard (canonicalPointee standard s) = canonicalPointee standard s /\
     canonicalPointer standard (canonicalPointer standard s) = canonicalPointer standard s).
Proof.
  split; [exact length_HexToAddress | split].
  - intros a Hlen. split; [now apply HexToAddress_Hex |].
    destruct (strip0x_Hex a) as (Hprefix & Hdigits & Hlength).
    split; [| exact Hprefix].
    unfold IsHexAddress. fold (strip0x (Hex a)).
    rewrite Hlength, Hlen, Nat.eqb_refl.
    rewrite <- isHex_lowerASCII, Hdigits. apply isHex_hexEncode.
  - intros standard s. unfold canonicalPointee, canonicalPointer.
    destruct (isCodeTemplate standard); rewrite ?HexToAddress_canonical; split; reflexivity.
Qed.

Lemma Hex_HexToAddress_inverse_witness :
  HexToAddress (Hex Scenario.token) = Scenario.token /\
  IsHexAddress (Hex Scenario.token) = true /\
  has0xPrefix (Hex Scenario.token) = true.
Proof.
  apply (proj1 (proj2 Hex_HexToAddress_inverse) Scenario.token).
  apply length_HexToAddress.
Defined.

(** X9: a key and its canonical form are interchangeable in a lookup.  For
    each of the seven standards [Pointer] gives the same answer for a
    non-empty pointee key and for its canonical form, and so does [Pointee]
    for a non-empty pointer address under every standard but NATIVE, where
    the string goes to the keeper as it is. *)
Theorem canonical_key_gets_same_answer :
  forall (q : Querier) (ctx : SdkContext) (standard : PointerType),
    In standard knownStandards ->
    (forall pointee, pointee <> "" ->
       Pointer q ctx (QueryPointerRequest.mk standard (canonicalPointee standard pointee))
         = Pointer q ctx (QueryPointerRequest.mk standard pointee)) /\
    (forall pointer, pointer <> "" ->
       standard <> PointerType_NATIVE ->
       Pointee q ctx (QueryPointeeRequest.mk standard (canonicalPointer standard pointer))
         = Pointee q ctx (QueryPointeeRequest.mk standard pointer)).
Proof.
  intros q ctx standard Hknown. split.
  - intros pointee Hne. apply String.eqb_neq in Hne.
    known_standard Hknown; unfold canonicalPointee; simpl; try reflexivity;
      unfold Pointer; simpl; rewrite Hne, HexToAddress_canonical; reflexivity.
  - intros pointer Hne Hnative. apply String.eqb_neq in Hne.
    known_standard Hknown; unfold canonicalPointer; simpl; try reflexivity;
      try (now contradiction Hnative);
      unfold Pointee; simpl; rewrite Hne, HexToAddress_canonical; reflexivity.
Qed.

Lemma canonical_key_gets_same_answer_witness :
  Pointer Scenario.querier Scenario.ctx
    (QueryPointerRequest.mk PointerType_ERC20
       (canonicalPointee PointerType_ERC20 "5aaeb6053f3e94c9b9a09f33669435e7ef1beaed"))
    = Pointer Scenario.querier Scenario.ctx
        (QueryPointerRequest.mk PointerType_ERC20 "5aaeb6053f3e94c9b9a09f33669435e7ef1beaed") /\
  Pointee Scenario.querier Scenario.ctx
    (QueryPointeeRequest.mk PointerType_CW20
       (canonicalPointer PointerType_CW20 "5aaeb6053f3e94c9b9a09f33669435e7ef1beaed"))
    = Pointee Scenario.querier Scenario.ctx
        (QueryPointeeRequest.mk PointerType_CW20 "5aaeb6053f3e94c9b9a09f33669435e7ef1beaed").
Proof.
  split.
  - apply (proj1 (canonical_key_gets_same_answer Scenario.querier Scenario.ctx
                    PointerType_ERC20 ltac:(simpl; tauto))).
    discriminate.
  - apply (proj2 (canonical_key_gets_same_answer Scenario.querier Scenario.ctx
                    PointerType_CW20 ltac:(simpl; tauto)));
      discriminate.
Defined.
